(** * go-start, package view: form field controllers and the Span element

    A shallow embedding of [view/formfieldcontrollers.go] and [view/span.go].

    Go values are embedded as follows.
    - [string] is [string]; [int] is a [Z] in the 64-bit range, its one
      arithmetic operation ([index++]) written with its wrap-around;
      [[]byte] is [list Byte.byte]; [[]string] is [list string].
    - A function that can panic returns an [Outcome]; a Go result pair
      [(View, error)] is a pair of options, [nil] being [None].
    - [metaData.Value.Addr().Interface()] is the field of the model the
      descriptor addresses.  It is embedded as a [model.Field]: the
      constructor is the dynamic type a type assertion inspects, the payload
      is the content a controller reads or overwrites.  Descriptors handed
      to controllers address struct fields, so [Addr()] itself is taken to
      succeed.
    - [SetValue] mutates the model and consumes the request; here it
      returns a [Binding]: the content of the field when the call returns,
      the operations it performed on upload streams, and the Go [error]. *)

From Stdlib Require Import ZArith List Bool Ascii String Lia DecimalString.
From Stdlib Require Import DecimalNat Permutation.
From stdpp Require Import base option list gmap strings.
Import ListNotations.

Local Open Scope string_scope.
Local Open Scope Z_scope.

(** ** Go runtime pieces *)

Inductive Outcome (A : Type) : Type :=
| Returns (a : A)
| Panics (msg : string).
Arguments Returns {A} a.
Arguments Panics {A} msg.

Definition int_bits : Z := 64.
Definition min_int : Z := - 2 ^ (int_bits - 1).
Definition max_int : Z := 2 ^ (int_bits - 1) - 1.

(** Two's complement wrap-around of Go's [int]. *)
Definition wrap_int (z : Z) : Z :=
  (z - min_int) mod 2 ^ int_bits + min_int.

(** [fmt.Sprintf("%d", i)] for a slice index. *)
Definition sprint_d (i : nat) : string :=
  NilZero.string_of_uint (Nat.to_uint i).

(** ** package model (the parts the controllers touch) *)

Module model.

(** The content of one model field, tagged with its Go type.  The
    text-like types are Go string types, [MultipleChoice] is a string
    slice, [DynamicChoice] holds an index and its own options, [File]
    holds a name and the data, [Blob] the data.  [VOther] is any type
    this file has no controller for; [isValue] tells whether it
    implements the [model.Value] interface. *)
Inductive Field : Type :=
| VString (s : string)
| VText (s : string)
| VUrl (s : string)
| VEmail (s : string)
| VPassword (s : string)
| VPhone (s : string)
| VBool (b : bool)
| VChoice (s : string)
| VMultipleChoice (selected : list string)
| VDynamicChoice (index : Z) (options : list string)
| VDate (s : string)
| VDateTime (s : string)
| VFloat (bits : Z)
| VInt (i : Z)
| VFile (name : string) (data : list Byte.byte)
| VBlob (data : list Byte.byte)
| VOther (typeName : string) (isValue : bool).

(** The dynamic type behind the interface value. *)
Inductive Type_ : Type :=
| String | Text | Url | Email | Password | Phone | Bool | Choice
| MultipleChoice | DynamicChoice | Date | DateTime | Float | Int
| File | Blob | Other (typeName : string).

Definition TypeOf (v : Field) : Type_ :=
  match v with
  | VString _ => String | VText _ => Text | VUrl _ => Url
  | VEmail _ => Email | VPassword _ => Password | VPhone _ => Phone
  | VBool _ => Bool | VChoice _ => Choice
  | VMultipleChoice _ => MultipleChoice
  | VDynamicChoice _ _ => DynamicChoice
  | VDate _ => Date | VDateTime _ => DateTime
  | VFloat _ => Float | VInt _ => Int
  | VFile _ _ => File | VBlob _ => Blob
  | VOther n _ => Other n
  end.

(** [_, ok := x.(model.Value)]: every type above but a foreign one. *)
Definition IsValue (v : Field) : bool :=
  match v with
  | VOther _ isValue => isValue
  | _ => true
  end.

(** [*model.MetaData]: the selector, the addressed field, and the
    attributes of the struct tags, by tag key and attribute name. *)
Record MetaData : Type := {
  Selector : string;
  Value : Field;
  Attribs : gmap string (gmap string string)
}.

(** [metaData.Attrib(tagKey, name)], a value and an ok flag in Go. *)
Definition Attrib (md : MetaData) (tagKey name : string) : option string :=
  match Attribs md !! tagKey with
  | Some tag => tag !! name
  | None => None
  end.

(** The descriptor of the same field once its content is [v]. *)
Definition holding (md : MetaData) (v : Field) : MetaData :=
  {| Selector := Selector md; Value := v; Attribs := Attribs md |}.

End model.

(** ** errors *)

(** [ErrFormFieldTypeNotSupported] embeds the descriptor; every other
    error reaching this file comes from net/http or io. *)
Inductive Error : Type :=
| ErrFormFieldTypeNotSupported (md : model.MetaData)
| ErrForeign (msg : string).

(** ** mime/multipart, io/ioutil, net/http: the request as read here *)

Module multipart.

(** An upload stream: what reading it to the end finds.  When [readErr]
    is an error, reading stops with it after [payload]. *)
Record File : Type := {
  payload : list Byte.byte;
  readErr : option Error
}.

(** [*multipart.FileHeader]; [openErr] is the error of its [Open()]. *)
Record FileHeader : Type := {
  Filename : string;
  openErr : option Error;
  content : File
}.

End multipart.

Module ioutil.

(** [ioutil.ReadAll]: the bytes read and the error that stopped it. *)
Definition ReadAll (f : multipart.File) : list Byte.byte * option Error :=
  (multipart.payload f, multipart.readErr f).

End ioutil.

Module http.

(** [*http.Request]: the parsed form ([url.Values]), the error of
    parsing a multipart body if it has one, and the uploaded files by
    form key. *)
Record Request : Type := {
  Form : gmap string (list string);
  multipartErr : option Error;
  MultipartFile : gmap string (list multipart.FileHeader)
}.

Definition ErrMissingFile : Error := ErrForeign "http: no such file".

(** [Request.FormValue(key)]: the first value of the key, or the empty
    string. *)
Definition FormValue (r : Request) (key : string) : string :=
  match Form r !! key with
  | Some (v :: _) => v
  | _ => ""
  end.

(** [Request.FormFile(key)]: the multipart error if parsing failed,
    else the first file of the key with the error of opening it, else
    [ErrMissingFile]. *)
Definition FormFile (r : Request) (key : string)
  : option multipart.File * option multipart.FileHeader * option Error :=
  match multipartErr r with
  | Some e => (None, None, Some e)
  | None =>
      match MultipartFile r !! key with
      | Some (fh :: _) =>
          match multipart.openErr fh with
          | Some e => (None, Some fh, Some e)
          | None => (Some (multipart.content fh), Some fh, None)
          end
      | _ => (None, None, Some ErrMissingFile)
      end
  end.

End http.

(** What a call did to the upload stream of a form key. *)
Inductive StreamOp : Type :=
| Open (key : string)
| Read (key : string)
| Close (key : string).

(** [*view.Context], of which the controllers use the request. *)
Record Context : Type := { Request : http.Request }.

(** What a [SetValue] call leaves behind: the content of the addressed
    field, the stream operations performed in order, the returned error. *)
Record Binding : Type := {
  stored : model.Field;
  streams : list StreamOp;
  err : option Error
}.

(** ** package view: the views the controllers build *)

(** [*view.Form], as the presentation policy the controllers query. *)
Record Form : Type := {
  FieldInputClass : model.MetaData -> string;
  GetInputSize : model.MetaData -> Z;
  IsFieldDisabled : model.MetaData -> bool;
  InputFieldPlaceholder : model.MetaData -> string;
  FieldLabel : model.MetaData -> string
}.

Inductive TextFieldType : Type :=
| NormalTextField
| PasswordTextField
| EmailTextField.

Module TextField.
Record t : Type := {
  Class : string;
  Name : string;
  Type_ : TextFieldType;
  Text : string;
  Size : Z;
  MaxLength : Z;
  Disabled : bool;
  Placeholder : string
}.
End TextField.

Module TextArea.
Record t : Type := {
  Class : string;
  Name : string;
  Text : string;
  Cols : Z;
  Rows : Z;
  Disabled : bool;
  Placeholder : string
}.
End TextArea.

Module Checkbox.
Record t : Type := {
  Label : string;
  Class : string;
  Name : string;
  Disabled : bool;
  Checked : bool
}.
End Checkbox.

Inductive SelectModel : Type :=
| StringsSelectModel (options : list string) (selected : string)
| IndexedStringsSelectModel (options : list string) (index : Z).

Module Select.
Record t : Type := {
  Class : string;
  Name : string;
  Model : SelectModel;
  Disabled : bool;
  Size : Z
}.
End Select.

Module FileInput.
Record t : Type := {
  Class : string;
  Name : string;
  Disabled : bool
}.
End FileInput.

(** The [View] implementations a controller returns. *)
#[warning="-register-all"]
Inductive View : Type :=
| TextFieldView (v : TextField.t)
| TextAreaView (v : TextArea.t)
| CheckboxView (v : Checkbox.t)
| SelectView (v : Select.t)
| FileInputView (v : FileInput.t)
| HTML (s : string)
| Views (vs : list View).

(** Code of packages view and model that this file calls and
    formfieldcontrollers.go does not define. *)
Class Library : Type := {
  (** [AddStandardLabel(form, forView, metaData)] *)
  AddStandardLabel : Form -> View -> model.MetaData -> View;
  (** the constant [StructTagKey] *)
  StructTagKey : string;
  (** [Maxlen(metaData)] of [model.String]: the limit and whether one is
      declared (the third result is dropped by the callers) *)
  String_Maxlen : model.MetaData -> Z * bool;
  (** [Maxlen(metaData)] of [model.Password] *)
  Password_Maxlen : model.MetaData -> Z * bool;
  (** [Options(metaData)] of [model.Choice] *)
  Choice_Options : model.MetaData -> list string;
  (** [Options(metaData)] of [model.MultipleChoice] *)
  MultipleChoice_Options : model.MetaData -> list string;
  (** [IsSet(option)] of [model.MultipleChoice], given the selection *)
  MultipleChoice_IsSet : list string -> string -> bool;
  (** [model.Value.SetString(str)]: the content it leaves in the field *)
  SetString : model.Field -> string -> model.Field;
  (** [String()] of [model.Float] and of [model.Int] *)
  Float_String : Z -> string;
  Int_String : Z -> string;
  (** the constants [model.DateFormat] and [model.DateTimeFormat] *)
  DateFormat : string;
  DateTimeFormat : string
}.

(** ** FormFieldController *)

Module FormFieldController.

(** The interface: a value of it is the method set of a controller. *)
Record t : Type := {
  Supports : model.MetaData -> Form -> bool;
  NewInput : bool -> model.MetaData -> Form
             -> Outcome (option View * option Error);
  SetValue : Context -> model.MetaData -> Form -> Outcome Binding
}.

End FormFieldController.

(** ** FormFieldControllers *)

Module FormFieldControllers.

Definition t : Type := list FormFieldController.t.

Fixpoint Supports (self : t) (metaData : model.MetaData) (form : Form)
  : bool :=
  match self with
  | [] => false
  | c :: rest =>
      if FormFieldController.Supports c metaData form then true
      else Supports rest metaData form
  end.

Fixpoint NewInput (self : t) (withLabel : bool)
    (metaData : model.MetaData) (form : Form)
  : Outcome (option View * option Error) :=
  match self with
  | [] => Returns (None, Some (ErrFormFieldTypeNotSupported metaData))
  | c :: rest =>
      if FormFieldController.Supports c metaData form
      then FormFieldController.NewInput c withLabel metaData form
      else NewInput rest withLabel metaData form
  end.

Fixpoint SetValue (self : t) (ctx : Context)
    (metaData : model.MetaData) (form : Form) : Outcome Binding :=
  match self with
  | [] =>
      Returns {| stored := model.Value metaData;
                 streams := [];
                 err := Some (ErrFormFieldTypeNotSupported metaData) |}
  | c :: rest =>
      if FormFieldController.Supports c metaData form
      then FormFieldController.SetValue c ctx metaData form
      else SetValue rest ctx metaData form
  end.

End FormFieldControllers.

(** ** strconv *)

Module strconv.

Definition digit (c : ascii) : option Z :=
  let n := Z.of_nat (nat_of_ascii c) in
  if (48 <=? n) && (n <=? 57) then Some (n - 48) else None.

Fixpoint digits (s : string) (acc : Z) : option Z :=
  match s with
  | EmptyString => Some acc
  | String c rest =>
      match digit c with
      | Some d => digits rest (10 * acc + d)
      | None => None
      end
  end.

Definition ErrSyntax : Error := ErrForeign "strconv.Atoi: invalid syntax".
Definition ErrRange : Error := ErrForeign "strconv.Atoi: value out of range".

(** [strconv.Atoi]: an optional sign, then one or more decimal digits,
    the value within [int]. *)
Definition Atoi (s : string) : Z * option Error :=
  let '(neg, body) :=
    match s with
    | String "-"%char rest => (true, rest)
    | String "+"%char rest => (false, rest)
    | _ => (false, s)
    end in
  match body with
  | EmptyString => (0, Some ErrSyntax)
  | _ =>
      match digits body 0 with
      | None => (0, Some ErrSyntax)
      | Some n =>
          let v := if neg then - n else n in
          if v <? min_int then (min_int, Some ErrRange)
          else if max_int <? v then (max_int, Some ErrRange)
          else (v, None)
      end
  end.

End strconv.

(** [reflect.Value.Type()] printed with [%s]. *)
Definition TypeName (t : model.Type_) : string :=
  match t with
  | model.String => "model.String" | model.Text => "model.Text"
  | model.Url => "model.Url" | model.Email => "model.Email"
  | model.Password => "model.Password" | model.Phone => "model.Phone"
  | model.Bool => "model.Bool" | model.Choice => "model.Choice"
  | model.MultipleChoice => "model.MultipleChoice"
  | model.DynamicChoice => "model.DynamicChoice"
  | model.Date => "model.Date" | model.DateTime => "model.DateTime"
  | model.Float => "model.Float" | model.Int => "model.Int"
  | model.File => "model.File" | model.Blob => "model.Blob"
  | model.Other n => n
  end.

(** The [Error()] method; a foreign error prints its own message. *)
Definition Error_string (e : Error) : string :=
  match e with
  | ErrFormFieldTypeNotSupported md =>
      "Type " ++ TypeName (model.TypeOf (model.Value md))
      ++ " of form field " ++ model.Selector md ++ " not supported"
  | ErrForeign msg => msg
  end.

(** The run-time panic of a failed single-result type assertion. *)
Definition conversion_panic {A : Type} (wanted : string) : Outcome A :=
  Panics ("interface conversion: interface is not " ++ wanted).

(** [if withLabel { return AddStandardLabel(form, input, metaData), nil };
    return input, nil], the tail of most [NewInput] methods. *)
Definition labelled `{Library} (withLabel : bool) (form : Form)
    (input : View) (metaData : model.MetaData)
  : Outcome (option View * option Error) :=
  if withLabel
  then Returns (Some (AddStandardLabel form input metaData), None)
  else Returns (Some input, None).

(** ** modelValueControllerBase *)

Module modelValueControllerBase.

Definition SetValue `{Library} (ctx : Context)
    (metaData : model.MetaData) (form : Form) : Outcome Binding :=
  if model.IsValue (model.Value metaData) then
    Returns {| stored :=
                 SetString (model.Value metaData)
                   (http.FormValue (Request ctx) (model.Selector metaData));
               streams := [];
               err := None |}
  else conversion_panic "model.Value".

End modelValueControllerBase.

(** [if maxlen, ok, _ := x.Maxlen(metaData); ok { ... }], shared by the
    string and the password controller. *)
Definition clampMaxlen (limit : Z * bool) (textField : TextField.t)
  : TextField.t :=
  match limit with
  | (maxlen, true) =>
      {| TextField.Class := TextField.Class textField;
         TextField.Name := TextField.Name textField;
         TextField.Type_ := TextField.Type_ textField;
         TextField.Text := TextField.Text textField;
         TextField.Size :=
           if maxlen <? TextField.Size textField then maxlen
           else TextField.Size textField;
         TextField.MaxLength := maxlen;
         TextField.Disabled := TextField.Disabled textField;
         TextField.Placeholder := TextField.Placeholder textField |}
  | (_, false) => textField
  end.

(** A [&TextField{...}] literal with the fields the text-like controllers
    set; the fields a literal leaves out hold Go's zero values. *)
Definition newTextField (form : Form) (metaData : model.MetaData)
    (type : TextFieldType) (text : string) (size : Z) : TextField.t :=
  {| TextField.Class := FieldInputClass form metaData;
     TextField.Name := model.Selector metaData;
     TextField.Type_ := type;
     TextField.Text := text;
     TextField.Size := size;
     TextField.MaxLength := 0;
     TextField.Disabled := IsFieldDisabled form metaData;
     TextField.Placeholder := InputFieldPlaceholder form metaData |}.

(** ** ModelStringController *)

Module ModelStringController.

Definition Supports (metaData : model.MetaData) (form : Form) : bool :=
  match model.TypeOf (model.Value metaData) with
  | model.String => true
  | _ => false
  end.

Definition NewInput `{Library} (withLabel : bool)
    (metaData : model.MetaData) (form : Form)
  : Outcome (option View * option Error) :=
  match model.Value metaData with
  | model.VString str =>
      let textField :=
        newTextField form metaData NormalTextField str
          (GetInputSize form metaData) in
      let textField := clampMaxlen (String_Maxlen metaData) textField in
      labelled withLabel form (TextFieldView textField) metaData
  | _ => conversion_panic "*model.String"
  end.

Definition SetValue `{Library} := modelValueControllerBase.SetValue.

Definition controller `{Library} : FormFieldController.t :=
  {| FormFieldController.Supports := Supports;
     FormFieldController.NewInput := NewInput;
     FormFieldController.SetValue := SetValue |}.

End ModelStringController.

(** ** ModelTextController *)

Module ModelTextController.

Definition Supports (metaData : model.MetaData) (form : Form) : bool :=
  match model.TypeOf (model.Value metaData) with
  | model.Text => true
  | _ => false
  end.

(** [var n int; if str, ok := metaData.Attrib(StructTagKey, name); ok
    { n, err = strconv.Atoi(str); if err != nil { panic(...) } }] *)
Definition intAttrib `{Library} (metaData : model.MetaData)
    (name : string) : Outcome Z :=
  match model.Attrib metaData StructTagKey name with
  | Some str =>
      match strconv.Atoi str with
      | (_, Some e) =>
          Panics ("Error in StandardFormFieldFactory.NewInput(): "
                  ++ Error_string e)
      | (n, None) => Returns n
      end
  | None => Returns 0
  end.

Definition NewInput `{Library} (withLabel : bool)
    (metaData : model.MetaData) (form : Form)
  : Outcome (option View * option Error) :=
  match model.Value metaData with
  | model.VText text =>
      match intAttrib metaData "cols" with
      | Panics msg => Panics msg
      | Returns cols =>
          match intAttrib metaData "rows" with
          | Panics msg => Panics msg
          | Returns rows =>
              let input :=
                TextAreaView
                  {| TextArea.Class := FieldInputClass form metaData;
                     TextArea.Name := model.Selector metaData;
                     TextArea.Text := text;
                     TextArea.Cols := cols;
                     TextArea.Rows := rows;
                     TextArea.Disabled := IsFieldDisabled form metaData;
                     TextArea.Placeholder :=
                       InputFieldPlaceholder form metaData |} in
              labelled withLabel form input metaData
          end
      end
  | _ => conversion_panic "*model.Text"
  end.

Definition SetValue `{Library} := modelValueControllerBase.SetValue.

Definition controller `{Library} : FormFieldController.t :=
  {| FormFieldController.Supports := Supports;
     FormFieldController.NewInput := NewInput;
     FormFieldController.SetValue := SetValue |}.

End ModelTextController.

(** ** ModelUrlController *)

Module ModelUrlController.

Definition Supports (metaData : model.MetaData) (form : Form) : bool :=
  match model.TypeOf (model.Value metaData) with
  | model.Url => true
  | _ => false
  end.

Definition NewInput `{Library} (withLabel : bool)
    (metaData : model.MetaData) (form : Form)
  : Outcome (option View * option Error) :=
  match model.Value metaData with
  | model.VUrl url =>
      let input :=
        TextFieldView
          (newTextField form metaData NormalTextField url
             (GetInputSize form metaData)) in
      labelled withLabel form input metaData
  | _ => conversion_panic "*model.Url"
  end.

Definition SetValue `{Library} := modelValueControllerBase.SetValue.

Definition controller `{Library} : FormFieldController.t :=
  {| FormFieldController.Supports := Supports;
     FormFieldController.NewInput := NewInput;
     FormFieldController.SetValue := SetValue |}.

End ModelUrlController.

(** ** ModelEmailController *)

Module ModelEmailController.

Definition Supports (metaData : model.MetaData) (form : Form) : bool :=
  match model.TypeOf (model.Value metaData) with
  | model.Email => true
  | _ => false
  end.

Definition NewInput `{Library} (withLabel : bool)
    (metaData : model.MetaData) (form : Form)
  : Outcome (option View * option Error) :=
  match model.Value metaData with
  | model.VEmail email =>
      let input :=
        TextFieldView
          (newTextField form metaData EmailTextField email
             (GetInputSize form metaData)) in
      labelled withLabel form input metaData
  | _ => conversion_panic "*model.Email"
  end.

Definition SetValue `{Library} := modelValueControllerBase.SetValue.

Definition controller `{Library} : FormFieldController.t :=
  {| FormFieldController.Supports := Supports;
     FormFieldController.NewInput := NewInput;
     FormFieldController.SetValue := SetValue |}.

End ModelEmailController.

(** ** ModelPasswordController *)

Module ModelPasswordController.

Definition Supports (metaData : model.MetaData) (form : Form) : bool :=
  match model.TypeOf (model.Value metaData) with
  | model.Password => true
  | _ => false
  end.

Definition NewInput `{Library} (withLabel : bool)
    (metaData : model.MetaData) (form : Form)
  : Outcome (option View * option Error) :=
  match model.Value metaData with
  | model.VPassword password =>
      let textField :=
        newTextField form metaData PasswordTextField password
          (GetInputSize form metaData) in
      let textField := clampMaxlen (Password_Maxlen metaData) textField in
      labelled withLabel form (TextFieldView textField) metaData
  | _ => conversion_panic "*model.Password"
  end.

Definition SetValue `{Library} := modelValueControllerBase.SetValue.

Definition controller `{Library} : FormFieldController.t :=
  {| FormFieldController.Supports := Supports;
     FormFieldController.NewInput := NewInput;
     FormFieldController.SetValue := SetValue |}.

End ModelPasswordController.

(** ** ModelPhoneController *)

Module ModelPhoneController.

Definition Supports (metaData : model.MetaData) (form : Form) : bool :=
  match model.TypeOf (model.Value metaData) with
  | model.Phone => true
  | _ => false
  end.

Definition NewInput `{Library} (withLabel : bool)
    (metaData : model.MetaData) (form : Form)
  : Outcome (option View * option Error) :=
  match model.Value metaData with
  | model.VPhone phone =>
      let input :=
        TextFieldView
          (newTextField form metaData NormalTextField phone
             (GetInputSize form metaData)) in
      labelled withLabel form input metaData
  | _ => conversion_panic "*model.Phone"
  end.

Definition SetValue `{Library} := modelValueControllerBase.SetValue.

Definition controller `{Library} : FormFieldController.t :=
  {| FormFieldController.Supports := Supports;
     FormFieldController.NewInput := NewInput;
     FormFieldController.SetValue := SetValue |}.

End ModelPhoneController.

(** ** ModelBoolController *)

Module ModelBoolController.

Definition Supports (metaData : model.MetaData) (form : Form) : bool :=
  match model.TypeOf (model.Value metaData) with
  | model.Bool => true
  | _ => false
  end.

Definition NewInput (withLabel : bool)
    (metaData : model.MetaData) (form : Form)
  : Outcome (option View * option Error) :=
  match model.Value metaData with
  | model.VBool b =>
      let checkbox :=
        {| Checkbox.Label :=
             if withLabel then FieldLabel form metaData else "";
           Checkbox.Class := FieldInputClass form metaData;
           Checkbox.Name := model.Selector metaData;
           Checkbox.Disabled := IsFieldDisabled form metaData;
           Checkbox.Checked := b |} in
      Returns (Some (CheckboxView checkbox), None)
  | _ => conversion_panic "*model.Bool"
  end.

Definition SetValue (ctx : Context)
    (metaData : model.MetaData) (form : Form) : Outcome Binding :=
  match model.Value metaData with
  | model.VBool _ =>
      Returns
        {| stored :=
             model.VBool
               (negb (String.eqb
                        (http.FormValue (Request ctx)
                           (model.Selector metaData)) ""));
           streams := [];
           err := None |}
  | _ => conversion_panic "*model.Bool"
  end.

Definition controller : FormFieldController.t :=
  {| FormFieldController.Supports := Supports;
     FormFieldController.NewInput := NewInput;
     FormFieldController.SetValue := SetValue |}.

End ModelBoolController.

(** [if len(options) == 0 || options[0] != "" { ... }], the test of the
    two choice controllers for injecting the empty option. *)
Definition lacksEmptyOption (options : list string) : bool :=
  match options with
  | [] => true
  | first :: _ => negb (String.eqb first "")
  end.

(** ** ModelChoiceController *)

Module ModelChoiceController.

Definition Supports (metaData : model.MetaData) (form : Form) : bool :=
  match model.TypeOf (model.Value metaData) with
  | model.Choice => true
  | _ => false
  end.

Definition NewInput `{Library} (withLabel : bool)
    (metaData : model.MetaData) (form : Form)
  : Outcome (option View * option Error) :=
  match model.Value metaData with
  | model.VChoice choice =>
      let options := Choice_Options metaData in
      let options :=
        if lacksEmptyOption options then "" :: options else options in
      let input :=
        SelectView
          {| Select.Class := FieldInputClass form metaData;
             Select.Name := model.Selector metaData;
             Select.Model := StringsSelectModel options choice;
             Select.Disabled := IsFieldDisabled form metaData;
             Select.Size := 1 |} in
      labelled withLabel form input metaData
  | _ => conversion_panic "*model.Choice"
  end.

Definition SetValue `{Library} := modelValueControllerBase.SetValue.

Definition controller `{Library} : FormFieldController.t :=
  {| FormFieldController.Supports := Supports;
     FormFieldController.NewInput := NewInput;
     FormFieldController.SetValue := SetValue |}.

End ModelChoiceController.

(** ** ModelMultipleChoiceController *)

Module ModelMultipleChoiceController.

Definition Supports (metaData : model.MetaData) (form : Form) : bool :=
  match model.TypeOf (model.Value metaData) with
  | model.MultipleChoice => true
  | _ => false
  end.

(** [fmt.Sprintf("%s_%d", metaData.Selector(), i)] *)
Definition boxName (metaData : model.MetaData) (i : nat) : string :=
  model.Selector metaData ++ "_" ++ sprint_d i.

(** The loop filling [checkboxes], from index [i] on. *)
Fixpoint checkboxesFrom `{Library} (metaData : model.MetaData) (form : Form)
    (m : list string) (i : nat) (options : list string) : list View :=
  match options with
  | [] => []
  | opt :: rest =>
      CheckboxView
        {| Checkbox.Label := opt;
           Checkbox.Class := FieldInputClass form metaData;
           Checkbox.Name := boxName metaData i;
           Checkbox.Disabled := IsFieldDisabled form metaData;
           Checkbox.Checked := MultipleChoice_IsSet m opt |}
      :: checkboxesFrom metaData form m (S i) rest
  end.

Definition NewInput `{Library} (withLabel : bool)
    (metaData : model.MetaData) (form : Form)
  : Outcome (option View * option Error) :=
  match model.Value metaData with
  | model.VMultipleChoice m =>
      let options := MultipleChoice_Options metaData in
      let checkboxes := Views (checkboxesFrom metaData form m 0 options) in
      labelled withLabel form checkboxes metaData
  | _ => conversion_panic "*model.MultipleChoice"
  end.

(** The loop of [SetValue] from index [i] on, [m] being the slice
    [*m] built so far. *)
Fixpoint appendChecked (ctx : Context) (metaData : model.MetaData)
    (i : nat) (options : list string) (m : list string) : list string :=
  match options with
  | [] => m
  | opt :: rest =>
      let name := boxName metaData i in
      let m :=
        if negb (String.eqb (http.FormValue (Request ctx) name) "")
        then (m ++ [opt])%list
        else m in
      appendChecked ctx metaData (S i) rest m
  end.

Definition SetValue `{Library} (ctx : Context)
    (metaData : model.MetaData) (form : Form) : Outcome Binding :=
  match model.Value metaData with
  | model.VMultipleChoice _ =>
      let options := MultipleChoice_Options metaData in
      let m : list string := [] in
      Returns
        {| stored :=
             model.VMultipleChoice (appendChecked ctx metaData 0 options m);
           streams := [];
           err := None |}
  | _ => conversion_panic "*model.MultipleChoice"
  end.

Definition controller `{Library} : FormFieldController.t :=
  {| FormFieldController.Supports := Supports;
     FormFieldController.NewInput := NewInput;
     FormFieldController.SetValue := SetValue |}.

End ModelMultipleChoiceController.

(** ** ModelDynamicChoiceController *)

Module ModelDynamicChoiceController.

Definition Supports (metaData : model.MetaData) (form : Form) : bool :=
  match model.TypeOf (model.Value metaData) with
  | model.DynamicChoice => true
  | _ => false
  end.

Definition NewInput `{Library} (withLabel : bool)
    (metaData : model.MetaData) (form : Form)
  : Outcome (option View * option Error) :=
  match model.Value metaData with
  | model.VDynamicChoice index options =>
      let '(options, index) :=
        if lacksEmptyOption options
        then ("" :: options, wrap_int (index + 1))
        else (options, index) in
      let input :=
        SelectView
          {| Select.Class := FieldInputClass form metaData;
             Select.Name := model.Selector metaData;
             Select.Model := IndexedStringsSelectModel options index;
             Select.Disabled := IsFieldDisabled form metaData;
             Select.Size := 1 |} in
      labelled withLabel form input metaData
  | _ => conversion_panic "*model.DynamicChoice"
  end.

Definition SetValue `{Library} := modelValueControllerBase.SetValue.

Definition controller `{Library} : FormFieldController.t :=
  {| FormFieldController.Supports := Supports;
     FormFieldController.NewInput := NewInput;
     FormFieldController.SetValue := SetValue |}.

End ModelDynamicChoiceController.

(** [Views{HTML("(Format: " + format + ")<br/>"), &TextField{...}}], the
    input of the date and the date-time controller. *)
Definition formatHintedField (form : Form) (metaData : model.MetaData)
    (format text : string) : View :=
  Views
    [ HTML ("(Format: " ++ format ++ ")<br/>");
      TextFieldView
        (newTextField form metaData NormalTextField text
           (Z.of_nat (String.length format))) ].

(** ** ModelDateController *)

Module ModelDateController.

Definition Supports (metaData : model.MetaData) (form : Form) : bool :=
  match model.TypeOf (model.Value metaData) with
  | model.Date => true
  | _ => false
  end.

Definition NewInput `{Library} (withLabel : bool)
    (metaData : model.MetaData) (form : Form)
  : Outcome (option View * option Error) :=
  match model.Value metaData with
  | model.VDate date =>
      let input := formatHintedField form metaData DateFormat date in
      labelled withLabel form input metaData
  | _ => conversion_panic "*model.Date"
  end.

Definition SetValue `{Library} := modelValueControllerBase.SetValue.

Definition controller `{Library} : FormFieldController.t :=
  {| FormFieldController.Supports := Supports;
     FormFieldController.NewInput := NewInput;
     FormFieldController.SetValue := SetValue |}.

End ModelDateController.

(** ** ModelDateTimeController *)

Module ModelDateTimeController.

Definition Supports (metaData : model.MetaData) (form : Form) : bool :=
  match model.TypeOf (model.Value metaData) with
  | model.DateTime => true
  | _ => false
  end.

Definition NewInput `{Library} (withLabel : bool)
    (metaData : model.MetaData) (form : Form)
  : Outcome (option View * option Error) :=
  match model.Value metaData with
  | model.VDateTime dateTime =>
      let input :=
        formatHintedField form metaData DateTimeFormat dateTime in
      labelled withLabel form input metaData
  | _ => conversion_panic "*model.DateTime"
  end.

Definition SetValue `{Library} := modelValueControllerBase.SetValue.

Definition controller `{Library} : FormFieldController.t :=
  {| FormFieldController.Supports := Supports;
     FormFieldController.NewInput := NewInput;
     FormFieldController.SetValue := SetValue |}.

End ModelDateTimeController.

(** A [&TextField{...}] literal that sets no [Size]. *)
Definition newUnsizedTextField (form : Form) (metaData : model.MetaData)
    (text : string) : TextField.t :=
  newTextField form metaData NormalTextField text 0.

(** ** ModelFloatController *)

Module ModelFloatController.

Definition Supports (metaData : model.MetaData) (form : Form) : bool :=
  match model.TypeOf (model.Value metaData) with
  | model.Float => true
  | _ => false
  end.

Definition NewInput `{Library} (withLabel : bool)
    (metaData : model.MetaData) (form : Form)
  : Outcome (option View * option Error) :=
  match model.Value metaData with
  | model.VFloat f =>
      let input :=
        TextFieldView
          (newUnsizedTextField form metaData (Float_String f)) in
      labelled withLabel form input metaData
  | _ => conversion_panic "*model.Float"
  end.

Definition SetValue `{Library} := modelValueControllerBase.SetValue.

Definition controller `{Library} : FormFieldController.t :=
  {| FormFieldController.Supports := Supports;
     FormFieldController.NewInput := NewInput;
     FormFieldController.SetValue := SetValue |}.

End ModelFloatController.

(** ** ModelIntController *)

Module ModelIntController.

Definition Supports (metaData : model.MetaData) (form : Form) : bool :=
  match model.TypeOf (model.Value metaData) with
  | model.Int => true
  | _ => false
  end.

Definition NewInput `{Library} (withLabel : bool)
    (metaData : model.MetaData) (form : Form)
  : Outcome (option View * option Error) :=
  match model.Value metaData with
  | model.VInt i =>
      let input :=
        TextFieldView
          (newUnsizedTextField form metaData (Int_String i)) in
      labelled withLabel form input metaData
  | _ => conversion_panic "*model.Int"
  end.

Definition SetValue `{Library} := modelValueControllerBase.SetValue.

Definition controller `{Library} : FormFieldController.t :=
  {| FormFieldController.Supports := Supports;
     FormFieldController.NewInput := NewInput;
     FormFieldController.SetValue := SetValue |}.

End ModelIntController.

(** [&FileInput{...}] followed by the labelled tail: the whole [NewInput]
    of the file and the blob controller, which assert no type. *)
Definition newFileInput `{Library} (withLabel : bool)
    (metaData : model.MetaData) (form : Form)
  : Outcome (option View * option Error) :=
  let input :=
    FileInputView
      {| FileInput.Class := FieldInputClass form metaData;
         FileInput.Name := model.Selector metaData;
         FileInput.Disabled := IsFieldDisabled form metaData |} in
  labelled withLabel form input metaData.

(** ** ModelFileController *)

Module ModelFileController.

Definition Supports (metaData : model.MetaData) (form : Form) : bool :=
  match model.TypeOf (model.Value metaData) with
  | model.File => true
  | _ => false
  end.

Definition NewInput `{Library} := newFileInput.

Definition SetValue (ctx : Context)
    (metaData : model.MetaData) (form : Form) : Outcome Binding :=
  match model.Value metaData with
  | model.VFile _ _ =>
      let key := model.Selector metaData in
      match http.FormFile (Request ctx) key with
      | (_, _, Some e) =>
          Returns {| stored := model.Value metaData;
                     streams := [];
                     err := Some e |}
      | (Some file, Some header, None) =>
          let deferred := [Close key] in
          match ioutil.ReadAll file with
          | (_, Some e) =>
              Returns {| stored := model.Value metaData;
                         streams := [Open key; Read key] ++ deferred;
                         err := Some e |}
          | (bytes, None) =>
              Returns {| stored :=
                           model.VFile (multipart.Filename header) bytes;
                         streams := [Open key; Read key] ++ deferred;
                         err := None |}
          end
      | (_, _, None) => Panics "nil pointer dereference"
      end
  | _ => conversion_panic "*model.File"
  end.

Definition controller `{Library} : FormFieldController.t :=
  {| FormFieldController.Supports := Supports;
     FormFieldController.NewInput := NewInput;
     FormFieldController.SetValue := SetValue |}.

End ModelFileController.

(** ** ModelBlobController *)

Module ModelBlobController.

Definition Supports (metaData : model.MetaData) (form : Form) : bool :=
  match model.TypeOf (model.Value metaData) with
  | model.Blob => true
  | _ => false
  end.

Definition NewInput `{Library} := newFileInput.

Definition SetValue (ctx : Context)
    (metaData : model.MetaData) (form : Form) : Outcome Binding :=
  match model.Value metaData with
  | model.VBlob _ =>
      let key := model.Selector metaData in
      match http.FormFile (Request ctx) key with
      | (_, _, Some e) =>
          Returns {| stored := model.Value metaData;
                     streams := [];
                     err := Some e |}
      | (Some file, _, None) =>
          let deferred := [Close key] in
          match ioutil.ReadAll file with
          | (_, Some e) =>
              Returns {| stored := model.Value metaData;
                         streams := [Open key; Read key] ++ deferred;
                         err := Some e |}
          | (bytes, None) =>
              Returns {| stored := model.VBlob bytes;
                         streams := [Open key; Read key] ++ deferred;
                         err := None |}
          end
      | (None, _, None) => Panics "nil pointer dereference"
      end
  | _ => conversion_panic "*model.Blob"
  end.

Definition controller `{Library} : FormFieldController.t :=
  {| FormFieldController.Supports := Supports;
     FormFieldController.NewInput := NewInput;
     FormFieldController.SetValue := SetValue |}.

End ModelBlobController.

(** The sixteen per-type controllers of formfieldcontrollers.go, in the
    order the file defines them. *)
Definition perTypeControllers `{Library} : FormFieldControllers.t :=
  [ ModelStringController.controller;
    ModelTextController.controller;
    ModelUrlController.controller;
    ModelEmailController.controller;
    ModelPasswordController.controller;
    ModelPhoneController.controller;
    ModelBoolController.controller;
    ModelChoiceController.controller;
    ModelMultipleChoiceController.controller;
    ModelDynamicChoiceController.controller;
    ModelDateController.controller;
    ModelDateTimeController.controller;
    ModelFloatController.controller;
    ModelIntController.controller;
    ModelFileController.controller;
    ModelBlobController.controller ].

(** ** utils.XMLWriter, as span.go drives it *)

Module XMLWriter.

(** Modelled from the spec: the pieces of markup the tag-writing helper
    of package utils puts on the output stream.  The helper is not among
    the sources; the spec shows its output for a span,
    an opening tag with attributes in double quotes and a full closing
    tag. *)
Inductive Markup : Type :=
| TagStart (tag : string)
| Attribute (name value : string)
| TagEnd
| TagClose (tag : string)
| Chars (text : string).

(** Modelled from the spec: the state of the tag-writing helper.  It is
    closed by [ForceCloseTag()] with no tag name, so it remembers the
    tags it has opened; attributes follow [OpenTag] before the tag's
    closing bracket, so it remembers whether that bracket is pending. *)
Record t : Type := {
  written : list Markup;
  tagStack : list string;
  inOpenTag : bool
}.

(** Modelled from the spec: the pending bracket of an opening tag, not
    part of the sources, written before anything that is no attribute. *)
Definition pendingBracket (w : t) : list Markup :=
  if inOpenTag w then [TagEnd] else [].

(** Modelled from the spec: [OpenTag(tag)] of the missing helper, which
    opens a container tag. *)
Definition OpenTag (tag : string) (w : t) : t :=
  {| written := written w ++ pendingBracket w ++ [TagStart tag];
     tagStack := tag :: tagStack w;
     inOpenTag := true |}.

(** Modelled from the spec: [Attrib(name, value)] of the missing helper,
    which writes one attribute of the tag being opened. *)
Definition Attrib (name value : string) (w : t) : t :=
  {| written := written w ++ [Attribute name value];
     tagStack := tagStack w;
     inOpenTag := inOpenTag w |}.

(** Modelled from the spec: [AttribIfNotDefault(name, value)] of the
    missing helper; an attribute is emitted only when non-default,
    omitted when equal to the zero value of its type, the empty string
    for a class. *)
Definition AttribIfNotDefault (name value : string) (w : t) : t :=
  if String.eqb value "" then w else Attrib name value w.

(** Modelled from the spec: [ForceCloseTag()] of the missing helper,
    which closes the innermost open tag with a full closing tag.  The
    spec says nothing of closing when no tag is open; that is a panic
    here, so that no result rests on it. *)
Definition ForceCloseTag (w : t) : Outcome t :=
  match tagStack w with
  | [] => Panics "XMLWriter: no tag to close"
  | tag :: rest =>
      Returns {| written := written w ++ pendingBracket w ++ [TagClose tag];
                 tagStack := rest;
                 inOpenTag := false |}
  end.

Definition quote : string := String (ascii_of_nat 34) EmptyString.

(** Modelled from the spec: the text of a piece of markup, as in the
    rendering the spec shows for a span. *)
Definition text (m : Markup) : string :=
  match m with
  | TagStart tag => "<" ++ tag
  | Attribute name value => " " ++ name ++ "=" ++ quote ++ value ++ quote
  | TagEnd => ">"
  | TagClose tag => "</" ++ tag ++ ">"
  | Chars s => s
  end.

Definition output (w : t) : string :=
  fold_right (fun m s => text m ++ s) "" (written w).

Definition new : t :=
  {| written := []; tagStack := []; inOpenTag := false |}.

End XMLWriter.

(** [*view.Response], of which span.go uses the XML writer. *)
Record Response : Type := { XML : XMLWriter.t }.

(** The [View] interface as a parent sees a child: its [Render] method,
    acting on the response and returning the Go error. *)
Record Renderer : Type := {
  Render : Response -> Response * option Error
}.

(** ** Span *)

Module Span.

Record t : Type := {
  id : string;
  Class : string;
  Content : option Renderer
}.

(** [response.XML.OpenTag("span").Attrib("id", self.id)
    .AttribIfNotDefault("class", self.Class)] *)
Definition openTag (self : t) (response : Response) : Response :=
  {| XML :=
       XMLWriter.AttribIfNotDefault "class" (Class self)
         (XMLWriter.Attrib "id" (id self)
            (XMLWriter.OpenTag "span" (XML response))) |}.

(** [if self.Content != nil { err = self.Content.Render(response) }] *)
Definition renderContent (self : t) (response : Response)
  : Response * option Error :=
  match Content self with
  | Some content => Render content response
  | None => (response, None)
  end.

Definition Render (self : t) (response : Response)
  : Outcome (Response * option Error) :=
  let response := openTag self response in
  let '(response, err) := renderContent self response in
  match XMLWriter.ForceCloseTag (XML response) with
  | Returns xml => Returns ({| XML := xml |}, err)
  | Panics msg => Panics msg
  end.

(** [IterateChildren(callback)]: the children the callback is given. *)
Definition IterateChildren (self : t) : list Renderer :=
  match Content self with
  | Some content => [content]
  | None => []
  end.

End Span.

(** * Vocabulary of the properties *)

Local Open Scope list_scope.

(** Go's [s != ""]. *)
Definition nonEmpty (s : string) : bool := negb (String.eqb s "").

(** The options whose indexed box holds a non-empty form value, in
    options order: position and option are paired, the checked pairs kept,
    the options read off. *)
Definition checkedOptions (ctx : Context) (metaData : model.MetaData)
    (first : nat) (options : list string) : list string :=
  map snd
    (List.filter
       (fun box =>
          nonEmpty
            (http.FormValue (Request ctx)
               (ModelMultipleChoiceController.boxName metaData (fst box))))
       (combine (seq first (length options)) options)).

(** The options list starts with the empty option. *)
Definition startsWithEmpty (options : list string) : bool :=
  match options with
  | EmptyString :: _ => true
  | _ => false
  end.

(** The options a choice select shows: the empty option first. *)
Definition withEmptyOption (options : list string) : list string :=
  if startsWithEmpty options then options else "" :: options.

(** The upload streams still open after a sequence of operations. *)
Fixpoint stillOpen (ops : list StreamOp) (opened : list string)
  : list string :=
  match ops with
  | [] => opened
  | Open key :: rest => stillOpen rest (key :: opened)
  | Read _ :: rest => stillOpen rest opened
  | Close key :: rest =>
      stillOpen rest (List.filter (fun k => negb (String.eqb k key)) opened)
  end.

(** The controller dedicated to a model type, if the file has one. *)
Definition controllerOf `{Library} (type : model.Type_)
  : option FormFieldController.t :=
  match type with
  | model.String => Some ModelStringController.controller
  | model.Text => Some ModelTextController.controller
  | model.Url => Some ModelUrlController.controller
  | model.Email => Some ModelEmailController.controller
  | model.Password => Some ModelPasswordController.controller
  | model.Phone => Some ModelPhoneController.controller
  | model.Bool => Some ModelBoolController.controller
  | model.Choice => Some ModelChoiceController.controller
  | model.MultipleChoice => Some ModelMultipleChoiceController.controller
  | model.DynamicChoice => Some ModelDynamicChoiceController.controller
  | model.Date => Some ModelDateController.controller
  | model.DateTime => Some ModelDateTimeController.controller
  | model.Float => Some ModelFloatController.controller
  | model.Int => Some ModelIntController.controller
  | model.File => Some ModelFileController.controller
  | model.Blob => Some ModelBlobController.controller
  | model.Other _ => None
  end.

(** A controller that claims the field, and one that does not. *)
Definition claims (metaData : model.MetaData) (form : Form)
    (c : FormFieldController.t) : bool :=
  FormFieldController.Supports c metaData form.

Definition declines (metaData : model.MetaData) (form : Form)
    (c : FormFieldController.t) : Prop :=
  FormFieldController.Supports c metaData form = false.

(** The select both choice controllers build around a model. *)
Definition choiceSelect (form : Form) (metaData : model.MetaData)
    (m : SelectModel) : View :=
  SelectView
    {| Select.Class := FieldInputClass form metaData;
       Select.Name := model.Selector metaData;
       Select.Model := m;
       Select.Disabled := IsFieldDisabled form metaData;
       Select.Size := 1 |}.

(** The operations on the stream of [key] when it was opened: opened,
    read to the end, closed. *)
Definition readAndClosed (key : string) : list StreamOp :=
  [Open key; Read key; Close key].

(** The binding of an upload, in terms of what [FormFile] and [ReadAll]
    give: [kept] is the field before the call, [filled] builds the field
    from the header and the bytes read. *)
Definition uploadBinding (r : http.Request) (key : string)
    (kept : model.Field)
    (filled : multipart.FileHeader -> list Byte.byte -> model.Field)
    (b : Binding) : Prop :=
  (forall file header e,
      http.FormFile r key = (file, header, Some e) ->
      b = {| stored := kept; streams := []; err := Some e |})
  /\ (forall file header,
         http.FormFile r key = (Some file, Some header, None) ->
         streams b = readAndClosed key
         /\ stillOpen (streams b) [] = []
         /\ (forall e,
                snd (ioutil.ReadAll file) = Some e ->
                err b = Some e /\ stored b = kept)
         /\ (snd (ioutil.ReadAll file) = None ->
             err b = None
             /\ stored b = filled header (fst (ioutil.ReadAll file))
             /\ fst (ioutil.ReadAll file) = multipart.payload file)).

(** The attributes of the opening tag: the id always, the class unless it
    is the empty string. *)
Definition spanAttributes (self : Span.t) : list XMLWriter.Markup :=
  XMLWriter.Attribute "id" (Span.id self)
  :: (if String.eqb (Span.Class self) "" then []
      else [XMLWriter.Attribute "class" (Span.Class self)]).

(** The contract of a view on the writer, from a caller's side: a render
    leaves open the tags it found open and adds to what is written. *)
Definition wellBracketed (v : Renderer) : Prop :=
  forall response,
    XMLWriter.tagStack (XML (fst (Render v response)))
    = XMLWriter.tagStack (XML response)
    /\ exists inner,
        XMLWriter.written (XML (fst (Render v response)))
        = XMLWriter.written (XML response) ++ inner.

(** ** Vocabulary of the further properties *)

(** [FormFieldControllers] has the three methods of the interface, so a
    list is itself a controller and can stand in another list. *)
Definition asController (self : FormFieldControllers.t)
  : FormFieldController.t :=
  {| FormFieldController.Supports := FormFieldControllers.Supports self;
     FormFieldController.NewInput := FormFieldControllers.NewInput self;
     FormFieldController.SetValue := FormFieldControllers.SetValue self |}.

(** The model types whose controller embeds [modelValueControllerBase] and
    so binds by [SetString]. *)
Definition bindsBySetString (type : model.Type_) : bool :=
  match type with
  | model.String | model.Text | model.Url | model.Email | model.Password
  | model.Phone | model.Choice | model.DynamicChoice | model.Date
  | model.DateTime | model.Float | model.Int => true
  | _ => false
  end.

(** The model types whose controller has a [SetValue] of its own. *)
Definition bindsItself (type : model.Type_) : bool :=
  match type with
  | model.Bool | model.MultipleChoice | model.File | model.Blob => true
  | _ => false
  end.

(** A struct tag attribute that is present and that [strconv.Atoi]
    rejects. *)
Definition malformedInt `{Library} (metaData : model.MetaData)
    (name : string) : Prop :=
  exists str e,
    model.Attrib metaData StructTagKey name = Some str
    /\ snd (strconv.Atoi str) = Some e.

(** The number an integer attribute stands for: zero when it is absent. *)
Definition attribValue `{Library} (metaData : model.MetaData)
    (name : string) : Z :=
  match model.Attrib metaData StructTagKey name with
  | Some str => fst (strconv.Atoi str)
  | None => 0
  end.

(** The labels of the checkboxes that are checked, in their order. *)
Definition checkedLabels (boxes : list View) : list string :=
  flat_map
    (fun box =>
       match box with
       | CheckboxView checkbox =>
           if Checkbox.Checked checkbox then [Checkbox.Label checkbox]
           else []
       | _ => []
       end)
    boxes.

(** A form that carries a non-empty value under the name of exactly the
    checkboxes, among [boxes], that are checked. *)
Definition submitsChecked (ctx : Context) (boxes : list View) : Prop :=
  forall checkbox,
    In (CheckboxView checkbox) boxes ->
    nonEmpty (http.FormValue (Request ctx) (Checkbox.Name checkbox))
    = Checkbox.Checked checkbox.

(** The four controllers with a [SetValue] of their own, and the twelve
    that embed [modelValueControllerBase]. *)
Definition selfBindingControllers `{Library} : FormFieldControllers.t :=
  [ ModelBoolController.controller;
    ModelMultipleChoiceController.controller;
    ModelFileController.controller;
    ModelBlobController.controller ].

Definition baseBindingControllers `{Library} : FormFieldControllers.t :=
  [ ModelStringController.controller;
    ModelTextController.controller;
    ModelUrlController.controller;
    ModelEmailController.controller;
    ModelPasswordController.controller;
    ModelPhoneController.controller;
    ModelChoiceController.controller;
    ModelDynamicChoiceController.controller;
    ModelDateController.controller;
    ModelDateTimeController.controller;
    ModelFloatController.controller;
    ModelIntController.controller ].


(** ** Concrete collaborators, for running the controllers *)

(** A library instance: labels wrap the input in a pair of views, a limit
    is declared by the [maxlen] attribute, options are fixed lists,
    [SetString] stores text in the text-like types. *)
Definition sampleMaxlen (metaData : model.MetaData) : Z * bool :=
  match model.Attrib metaData "model" "maxlen" with
  | Some str =>
      match strconv.Atoi str with
      | (n, None) => (n, 0 <? n)
      | (n, Some _) => (n, false)
      end
  | None => (0, false)
  end.

Definition sampleSetString (v : model.Field) (str : string) : model.Field :=
  match v with
  | model.VString _ => model.VString str
  | model.VText _ => model.VText str
  | model.VUrl _ => model.VUrl str
  | model.VEmail _ => model.VEmail str
  | model.VPassword _ => model.VPassword str
  | model.VPhone _ => model.VPhone str
  | model.VChoice _ => model.VChoice str
  | model.VDate _ => model.VDate str
  | model.VDateTime _ => model.VDateTime str
  | other => other
  end.

Definition sampleLibrary : Library :=
  {| AddStandardLabel :=
       fun form input metaData =>
         Views [HTML (FieldLabel form metaData); input];
     StructTagKey := "view";
     String_Maxlen := sampleMaxlen;
     Password_Maxlen := sampleMaxlen;
     Choice_Options := fun _ => ["a"; "b"];
     MultipleChoice_Options := fun _ => ["red"; "green"; "blue"];
     MultipleChoice_IsSet := fun m opt => existsb (String.eqb opt) m;
     SetString := sampleSetString;
     Float_String := fun _ => "0";
     Int_String :=
       fun i =>
         if i <? 0 then ("-" ++ sprint_d (Z.to_nat (- i)))%string
         else sprint_d (Z.to_nat i);
     DateFormat := "2006-01-02";
     DateTimeFormat := "2006-01-02 15:04:05" |}.

Definition sampleForm : Form :=
  {| FieldInputClass := fun _ => "input";
     GetInputSize := fun _ => 10;
     IsFieldDisabled := fun _ => false;
     InputFieldPlaceholder := fun _ => "";
     FieldLabel := fun metaData => model.Selector metaData |}.

(** A field [name] holding [v], with the attributes [attrs] under the
    struct tag key [model]. *)
Definition sampleField (name : string) (v : model.Field)
    (attrs : list (string * string)) : model.MetaData :=
  {| model.Selector := name;
     model.Value := v;
     model.Attribs := {[ "model" := list_to_map attrs ]} |}.

(** A request carrying the given form values and uploads. *)
Definition sampleContext (values : list (string * list string))
    (files : list (string * list multipart.FileHeader)) : Context :=
  {| Request :=
       {| http.Form := list_to_map values;
          http.multipartErr := None;
          http.MultipartFile := list_to_map files |} |}.

(** An upload [x.png] of three bytes under the key [avatar], and an upload
    under the key [raw] whose stream breaks after one byte. *)
Definition sampleUploads : Context :=
  sampleContext []
    [ ("avatar",
       [ {| multipart.Filename := "x.png";
            multipart.openErr := None;
            multipart.content :=
              {| multipart.payload := [Byte.x89; Byte.x50; Byte.x4e];
                 multipart.readErr := None |} |} ]);
      ("raw",
       [ {| multipart.Filename := "dump.bin";
            multipart.openErr := None;
            multipart.content :=
              {| multipart.payload := [Byte.x00];
                 multipart.readErr := Some (ErrForeign "unexpected EOF") |}
         |} ]) ].

(** A view that writes [s] as text and returns [err]. *)
Definition sampleChars (s : string) (err : option Error) : Renderer :=
  {| Render :=
       fun response =>
         ({| XML :=
               {| XMLWriter.written :=
                    XMLWriter.written (XML response)
                    ++ XMLWriter.pendingBracket (XML response)
                    ++ [XMLWriter.Chars s];
                  XMLWriter.tagStack := XMLWriter.tagStack (XML response);
                  XMLWriter.inOpenTag := false |} |},
          err) |}.

Definition sampleResponse : Response := {| XML := XMLWriter.new |}.

(** A controller that claims every field and answers with a fixed
    view. *)
Definition sampleCatchAll (answer : string) : FormFieldController.t :=
  {| FormFieldController.Supports := fun _ _ => true;
     FormFieldController.NewInput :=
       fun _ _ _ => Returns (Some (HTML answer), None);
     FormFieldController.SetValue :=
       fun _ metaData _ =>
         Returns {| stored := model.VString answer;
                    streams := [];
                    err := None |} |}.



(** * Properties *)

(** ** Dispatch over a controller list *)

Section Dispatch.

Variables (metaData : model.MetaData) (form : Form).

Lemma Supports_find (self : FormFieldControllers.t) :
  FormFieldControllers.Supports self metaData form
  = match List.find (claims metaData form) self with
    | Some _ => true
    | None => false
    end.
Proof.
  induction self as [|c rest IH]; simpl; [reflexivity|].
  unfold claims at 1.
  destruct (FormFieldController.Supports c metaData form); auto.
Qed.

Lemma NewInput_skip (before : FormFieldControllers.t) self withLabel :
  Forall (declines metaData form) before ->
  FormFieldControllers.NewInput (before ++ self) withLabel metaData form
  = FormFieldControllers.NewInput self withLabel metaData form.
Proof.
  induction 1 as [|b before Hb _ IH]; simpl; [reflexivity|].
  unfold declines in Hb. rewrite Hb. exact IH.
Qed.

Lemma SetValue_skip (before : FormFieldControllers.t) self ctx :
  Forall (declines metaData form) before ->
  FormFieldControllers.SetValue (before ++ self) ctx metaData form
  = FormFieldControllers.SetValue self ctx metaData form.
Proof.
  induction 1 as [|b before Hb _ IH]; simpl; [reflexivity|].
  unfold declines in Hb. rewrite Hb. exact IH.
Qed.

(** [List.find] stops at the first controller that claims the field:
    everything before it declines. *)
Lemma find_first (self : FormFieldControllers.t) c :
  List.find (claims metaData form) self = Some c ->
  exists before after,
    self = before ++ c :: after
    /\ Forall (declines metaData form) before
    /\ claims metaData form c = true.
Proof.
  induction self as [|d rest IH]; simpl; [discriminate|].
  destruct (claims metaData form d) eqn:Hd.
  - intros [= <-]. exists [], rest. repeat split; auto.
  - intros Hfind. destruct (IH Hfind) as (before & after & -> & Hall & Hc).
    exists (d :: before), after. repeat split; auto.
Qed.

Lemma find_nobody (self : FormFieldControllers.t) :
  List.find (claims metaData form) self = None ->
  Forall (declines metaData form) self.
Proof.
  induction self as [|d rest IH]; simpl; [constructor|].
  destruct (claims metaData form d) eqn:Hd; [discriminate|].
  intros Hfind. constructor; auto.
Qed.

End Dispatch.

(** C1.  For every controller list, field and form, with [c] the first
    controller in list order whose [Supports] is true: the list is
    [before ++ c :: after] with every controller of [before] declining,
    and [NewInput] and [SetValue] of the list are those of [c].  When no
    controller in the list supports the field, both return
    [ErrFormFieldTypeNotSupported] carrying the field's descriptor:
    [NewInput] with no view, [SetValue] with the field as it was and no
    stream touched.  The controllers being arbitrary, that result owes
    nothing to any controller's [NewInput] or [SetValue]. *)
Theorem FormFieldControllers_first_match_dispatch :
  forall (self : FormFieldControllers.t) (withLabel : bool) (ctx : Context)
         (metaData : model.MetaData) (form : Form),
    match List.find (claims metaData form) self with
    | Some c =>
        (exists before after,
            self = before ++ c :: after
            /\ Forall (declines metaData form) before
            /\ FormFieldController.Supports c metaData form = true)
        /\ FormFieldControllers.NewInput self withLabel metaData form
           = FormFieldController.NewInput c withLabel metaData form
        /\ FormFieldControllers.SetValue self ctx metaData form
           = FormFieldController.SetValue c ctx metaData form
    | None =>
        Forall (declines metaData form) self
        /\ FormFieldControllers.NewInput self withLabel metaData form
           = Returns (None, Some (ErrFormFieldTypeNotSupported metaData))
        /\ FormFieldControllers.SetValue self ctx metaData form
           = Returns {| stored := model.Value metaData;
                        streams := [];
                        err := Some (ErrFormFieldTypeNotSupported metaData) |}
    end.
Proof.
  intros self withLabel ctx metaData form.
  destruct (List.find (claims metaData form) self) as [c|] eqn:Hfind.
  - destruct (find_first _ _ _ _ Hfind) as (before & after & -> & Hall & Hc).
    unfold claims in Hc. split; [eauto 6|].
    rewrite NewInput_skip, SetValue_skip by assumption.
    simpl. rewrite Hc. split; reflexivity.
  - pose proof (find_nobody _ _ _ Hfind) as Hall. split; [assumption|].
    rewrite <- (app_nil_r self).
    rewrite NewInput_skip, SetValue_skip by assumption.
    split; reflexivity.
Qed.

(** Two controllers that both claim a string field: the one listed first
    answers.  A boolean field goes to the bool controller listed before
    them.  The empty list supports nothing. *)
Example dispatch_in_list_order :
  let self :=
    [ ModelBoolController.controller;
      sampleCatchAll "first"; sampleCatchAll "second" ] in
  FormFieldControllers.NewInput self false
    (sampleField "name" (model.VString "Ada") []) sampleForm
  = Returns (Some (HTML "first"), None)
  /\ stored <$> match FormFieldControllers.SetValue self
                        (sampleContext [("agree", ["on"])] [])
                        (sampleField "agree" (model.VBool false) [])
                        sampleForm with
                | Returns b => Some b
                | Panics _ => None
                end
     = Some (model.VBool true)
  /\ FormFieldControllers.NewInput [] false
       (sampleField "name" (model.VString "Ada") []) sampleForm
     = Returns
         (None,
          Some (ErrFormFieldTypeNotSupported
                  (sampleField "name" (model.VString "Ada") []))).
Proof. repeat split; vm_compute; reflexivity. Qed.

(** ** The per-type controllers outside their claimed type *)

(** A controller of this file that asserts its type panics on any other
    field: it returns nothing, so no error either. *)
Lemma ModelStringController_asserts `{Library} withLabel metaData form :
  ModelStringController.Supports metaData form = false ->
  ModelStringController.NewInput withLabel metaData form
  = conversion_panic "*model.String".
Proof.
  unfold ModelStringController.Supports, ModelStringController.NewInput.
  destruct (model.Value metaData); simpl; congruence.
Qed.

Lemma ModelBoolController_asserts withLabel metaData form :
  ModelBoolController.Supports metaData form = false ->
  ModelBoolController.NewInput withLabel metaData form
  = conversion_panic "*model.Bool".
Proof.
  unfold ModelBoolController.Supports, ModelBoolController.NewInput.
  destruct (model.Value metaData); simpl; congruence.
Qed.

(** The file and the blob controller assert nothing in [NewInput]: they
    build their input for any field. *)
Lemma ModelFileController_builds_anyway `{Library} withLabel metaData form :
  exists input,
    ModelFileController.NewInput withLabel metaData form
    = Returns (Some input, None).
Proof.
  unfold ModelFileController.NewInput, newFileInput, labelled.
  destruct withLabel; eauto.
Qed.

(** None of the sixteen controllers, called on a field it does not
    support, returns the error the interface documents. *)
Lemma perTypeControllers_NewInput_outside_type `{Library}
    (c : FormFieldController.t) withLabel metaData form :
  In c perTypeControllers ->
  FormFieldController.Supports c metaData form = false ->
  FormFieldController.NewInput c withLabel metaData form
  <> Returns (None, Some (ErrFormFieldTypeNotSupported metaData)).
Proof.
  intros Hin Hdeclines Hreturns.
  destruct metaData as [selector field attribs].
  unfold perTypeControllers in Hin. cbn [In] in Hin.
  repeat (destruct Hin as [<-|Hin]); try contradiction;
    destruct field; try discriminate Hdeclines;
    try discriminate Hreturns;
    cbv [FormFieldController.NewInput ModelFileController.controller
         ModelBlobController.controller ModelFileController.NewInput
         ModelBlobController.NewInput newFileInput labelled] in Hreturns;
    destruct withLabel; discriminate Hreturns.
Qed.

(** C2.  Evaluation at a boolean field [agree], which the string and the
    file controller do not support: [ModelStringController.NewInput]
    panics on its type assertion and [ModelFileController.NewInput]
    returns a file input with a nil error; neither returns
    [ErrFormFieldTypeNotSupported], which the interface documents for a
    model that is not supported. *)
Theorem NewInput_on_unsupported_field :
  forall (lib : Library) (withLabel : bool) (form : Form),
    let metaData := sampleField "agree" (model.VBool true) [] in
    ModelStringController.Supports metaData form = false
    /\ ModelStringController.NewInput withLabel metaData form
       = Panics "interface conversion: interface is not *model.String"
    /\ ModelFileController.Supports metaData form = false
    /\ ModelFileController.NewInput withLabel metaData form
       = labelled withLabel form
           (FileInputView
              {| FileInput.Class := FieldInputClass form metaData;
                 FileInput.Name := "agree";
                 FileInput.Disabled := IsFieldDisabled form metaData |})
           metaData
    /\ ModelStringController.NewInput withLabel metaData form
       <> Returns (None, Some (ErrFormFieldTypeNotSupported metaData))
    /\ ModelFileController.NewInput withLabel metaData form
       <> Returns (None, Some (ErrFormFieldTypeNotSupported metaData)).
Proof.
  intros lib withLabel form metaData.
  repeat split; try reflexivity; try discriminate.
  unfold ModelFileController.NewInput, newFileInput, labelled.
  destruct withLabel; discriminate.
Qed.

(** ** ModelBoolController.SetValue *)

Lemma nonEmpty_true (s : string) : nonEmpty s = true <-> s <> "".
Proof.
  unfold nonEmpty. rewrite negb_true_iff. split.
  - intros Hneq ->. rewrite String.eqb_refl in Hneq. discriminate.
  - intros Hneq. apply String.eqb_neq. exact Hneq.
Qed.

Lemma FormValue_absent (r : http.Request) (key : string) :
  http.Form r !! key = None -> http.FormValue r key = "".
Proof. unfold http.FormValue. intros ->. reflexivity. Qed.

Lemma FormValue_present (r : http.Request) (key v : string) rest :
  http.Form r !! key = Some (v :: rest) -> http.FormValue r key = v.
Proof. unfold http.FormValue. intros ->. reflexivity. Qed.

(** C3.  On a boolean field, [SetValue] returns with no error and leaves
    [true] in the field exactly when the form value of the field's
    selector is a non-empty string: a key that is absent leaves [false],
    a key that is present leaves [true] exactly when its first value is
    not empty, whatever that value reads. *)
Theorem ModelBoolController_SetValue_nonempty :
  forall (ctx : Context) (metaData : model.MetaData) (form : Form)
         (old : bool),
    model.Value metaData = model.VBool old ->
    exists b : bool,
      ModelBoolController.SetValue ctx metaData form
      = Returns {| stored := model.VBool b; streams := []; err := None |}
      /\ (b = true
          <-> http.FormValue (Request ctx) (model.Selector metaData) <> "")
      /\ (http.Form (Request ctx) !! model.Selector metaData = None
          -> b = false)
      /\ (forall v rest,
             http.Form (Request ctx) !! model.Selector metaData
             = Some (v :: rest)
             -> (b = true <-> v <> "")).
Proof.
  intros ctx metaData form old Hbool.
  unfold ModelBoolController.SetValue. rewrite Hbool.
  eexists. split; [reflexivity|].
  fold (nonEmpty (http.FormValue (Request ctx) (model.Selector metaData))).
  split; [apply nonEmpty_true|]. split.
  - intros Habsent. rewrite (FormValue_absent _ _ Habsent). reflexivity.
  - intros v rest Hpresent. rewrite (FormValue_present _ _ _ _ Hpresent).
    apply nonEmpty_true.
Qed.

(** A box submitted as the literal [false] checks the field; a form
    without the key unchecks it. *)
Lemma ModelBoolController_SetValue_witness :
  (exists b : bool,
      ModelBoolController.SetValue
        (sampleContext [("agree", ["false"])] [])
        (sampleField "agree" (model.VBool false) []) sampleForm
      = Returns {| stored := model.VBool b; streams := []; err := None |}
      /\ b = true)
  /\ (exists b : bool,
         ModelBoolController.SetValue (sampleContext [] [])
           (sampleField "agree" (model.VBool true) []) sampleForm
         = Returns {| stored := model.VBool b; streams := []; err := None |}
         /\ b = false).
Proof.
  split.
  - destruct (ModelBoolController_SetValue_nonempty
                (sampleContext [("agree", ["false"])] [])
                (sampleField "agree" (model.VBool false) []) sampleForm
                false eq_refl) as (b & Hrun & Hiff & _).
    exists b. split; [exact Hrun|]. apply Hiff. vm_compute. discriminate.
  - destruct (ModelBoolController_SetValue_nonempty
                (sampleContext [] [])
                (sampleField "agree" (model.VBool true) []) sampleForm
                true eq_refl) as (b & Hrun & _ & Habsent & _).
    exists b. split; [exact Hrun|]. apply Habsent. vm_compute. reflexivity.
Defined.

(** ** ModelMultipleChoiceController.SetValue *)

Section MultipleChoice.

Variables (ctx : Context) (metaData : model.MetaData).

(** The loop appends to the slice it starts from exactly the checked
    options, in order. *)
Lemma appendChecked_checkedOptions (options : list string) :
  forall (i : nat) (m : list string),
    ModelMultipleChoiceController.appendChecked ctx metaData i options m
    = m ++ checkedOptions ctx metaData i options.
Proof.
  induction options as [|opt rest IH]; intros i m.
  - unfold checkedOptions. simpl. now rewrite app_nil_r.
  - cbn [ModelMultipleChoiceController.appendChecked].
    rewrite IH. unfold checkedOptions.
    cbn [length seq combine List.filter fst].
    fold (nonEmpty (http.FormValue (Request ctx)
                      (ModelMultipleChoiceController.boxName metaData i))).
    destruct (nonEmpty _); cbn [map snd].
    + now rewrite <- app_assoc.
    + reflexivity.
Qed.

(** Positions paired with options: the pair [(i, o)] occurs when [o] is
    the option at offset [i - first]. *)
Lemma In_numbered (options : list string) :
  forall (first i : nat) (o : string),
    In (i, o) (combine (seq first (length options)) options)
    <-> exists j, i = (first + j)%nat /\ nth_error options j = Some o.
Proof.
  induction options as [|opt rest IH]; intros first i o; simpl.
  - split; [tauto|]. intros (j & _ & Hj). destruct j; discriminate.
  - rewrite IH. split.
    + intros [[= <- <-]|(j & -> & Hj)].
      * exists 0%nat. split; [lia|reflexivity].
      * exists (S j). split; [lia|exact Hj].
    + intros (j & -> & Hj). destruct j as [|j]; simpl in Hj.
      * left. injection Hj as ->. f_equal. lia.
      * right. exists j. split; [lia|exact Hj].
Qed.

Lemma In_checkedOptions (options : list string) (o : string) :
  In o (checkedOptions ctx metaData 0 options)
  <-> exists i,
      nth_error options i = Some o
      /\ http.FormValue (Request ctx)
           (ModelMultipleChoiceController.boxName metaData i) <> "".
Proof.
  unfold checkedOptions. rewrite in_map_iff. split.
  - intros ([i o'] & Hsnd & Hin). simpl in Hsnd. subst o'.
    apply filter_In in Hin as [Hin Hchecked].
    apply In_numbered in Hin as (j & -> & Hj).
    exists j. split; [exact Hj|]. now apply nonEmpty_true.
  - intros (i & Hi & Hchecked). exists (i, o). split; [reflexivity|].
    apply filter_In. split.
    + apply In_numbered. exists i. split; [reflexivity|exact Hi].
    + now apply nonEmpty_true.
Qed.

End MultipleChoice.

(** The box names depend on the selector only, which a write to the field
    leaves alone. *)
Lemma checkedOptions_holding ctx metaData v first options :
  checkedOptions ctx (model.holding metaData v) first options
  = checkedOptions ctx metaData first options.
Proof. reflexivity. Qed.

(** C4.  On a multiple-choice field with options list [options], whatever
    was selected before, [SetValue] returns with no error and leaves in the
    field exactly the options [options[i]], in options order, whose indexed
    form key [<selector>_<i>] has a non-empty value: an option is in the
    result exactly when it stands at some position whose box is checked.
    Nothing of the previous selection survives, and submitting the same
    form again on the field as it was left gives the same result. *)
Theorem ModelMultipleChoiceController_SetValue_rebuilds :
  forall (lib : Library) (ctx : Context) (metaData : model.MetaData)
         (form : Form) (previous options : list string),
    model.Value metaData = model.VMultipleChoice previous ->
    (forall v, MultipleChoice_Options (model.holding metaData v) = options) ->
    let selected := checkedOptions ctx metaData 0 options in
    let result :=
      {| stored := model.VMultipleChoice selected;
         streams := [];
         err := None |} in
    ModelMultipleChoiceController.SetValue ctx metaData form = Returns result
    /\ (forall o,
           In o selected
           <-> exists i,
               nth_error options i = Some o
               /\ http.FormValue (Request ctx)
                    (model.Selector metaData ++ "_" ++ sprint_d i)%string
                  <> "")
    /\ ModelMultipleChoiceController.SetValue ctx
         (model.holding metaData (stored result)) form
       = Returns result.
Proof.
  intros lib ctx metaData form previous options Hfield Hoptions
         selected result.
  assert (Hnow : MultipleChoice_Options metaData = options).
  { rewrite <- (Hoptions (model.Value metaData)).
    destruct metaData; reflexivity. }
  repeat split.
  - unfold ModelMultipleChoiceController.SetValue.
    rewrite Hfield, Hnow, appendChecked_checkedOptions. reflexivity.
  - apply In_checkedOptions.
  - apply In_checkedOptions.
  - unfold ModelMultipleChoiceController.SetValue.
    cbn [model.holding model.Value stored result].
    rewrite Hoptions, appendChecked_checkedOptions, checkedOptions_holding.
    reflexivity.
Qed.

(** Options red, green, blue with green selected before; the boxes 0 and
    2 arrive checked: red and blue are selected after, and again after a
    second submission of the same form. *)
Lemma ModelMultipleChoiceController_SetValue_witness :
  let ctx := sampleContext [("colors_0", ["on"]); ("colors_2", ["1"])] [] in
  let metaData :=
    sampleField "colors" (model.VMultipleChoice ["green"]) [] in
  let result :=
    {| stored := model.VMultipleChoice ["red"; "blue"];
       streams := [];
       err := None |} in
  @ModelMultipleChoiceController.SetValue sampleLibrary ctx metaData
    sampleForm
  = Returns result
  /\ @ModelMultipleChoiceController.SetValue sampleLibrary ctx
       (model.holding metaData (stored result)) sampleForm
     = Returns result.
Proof.
  intros ctx metaData result.
  destruct (ModelMultipleChoiceController_SetValue_rebuilds
              sampleLibrary ctx metaData sampleForm
              ["green"] ["red"; "green"; "blue"]
              eq_refl (fun _ => eq_refl)) as (Hfirst & _ & Hagain).
  split; [exact Hfirst|exact Hagain].
Defined.

(** ** The empty option of the choice controllers *)

Lemma lacksEmptyOption_startsWithEmpty (options : list string) :
  lacksEmptyOption options = negb (startsWithEmpty options).
Proof. destruct options as [|[|c s] rest]; reflexivity. Qed.

Lemma wrap_int_in_range (z : Z) :
  min_int <= z <= max_int -> wrap_int z = z.
Proof.
  unfold wrap_int, min_int, max_int, int_bits. intros Hrange.
  rewrite Z.mod_small; lia.
Qed.

(** C5.  [NewInput] of the single-choice controller, on a choice field,
    and of the dynamic-choice controller, on a dynamic-choice field whose
    index can be incremented within Go's [int], return a select, under a
    label if asked.  Its model lists the field's options behind an empty
    option whenever the options do not already start with the empty
    string, and unchanged otherwise.  The single choice keeps its current
    value; the dynamic choice passes its index plus one exactly when the
    empty option was injected, and its index otherwise. *)
Theorem choice_NewInput_empty_option :
  forall (lib : Library) (withLabel : bool) (form : Form)
         (single : model.MetaData) (choice : string)
         (dynamic : model.MetaData) (index : Z) (options : list string),
    model.Value single = model.VChoice choice ->
    model.Value dynamic = model.VDynamicChoice index options ->
    min_int <= index < max_int ->
    ModelChoiceController.NewInput withLabel single form
    = labelled withLabel form
        (choiceSelect form single
           (StringsSelectModel
              (withEmptyOption (Choice_Options single)) choice))
        single
    /\ ModelDynamicChoiceController.NewInput withLabel dynamic form
       = labelled withLabel form
           (choiceSelect form dynamic
              (IndexedStringsSelectModel
                 (withEmptyOption options)
                 (if startsWithEmpty options then index else index + 1)))
           dynamic
    /\ (forall first rest,
           first <> "" ->
           withEmptyOption (first :: rest) = "" :: first :: rest)
    /\ withEmptyOption [] = [""].
Proof.
  intros lib withLabel form single choice dynamic index options
         Hsingle Hdynamic Hindex.
  repeat split.
  - unfold ModelChoiceController.NewInput. rewrite Hsingle.
    rewrite lacksEmptyOption_startsWithEmpty. unfold withEmptyOption.
    destruct (startsWithEmpty _); reflexivity.
  - unfold ModelDynamicChoiceController.NewInput. rewrite Hdynamic.
    rewrite lacksEmptyOption_startsWithEmpty. unfold withEmptyOption.
    destruct (startsWithEmpty _); cbn [negb]; [reflexivity|].
    rewrite wrap_int_in_range by lia. reflexivity.
  - intros first rest Hfirst. unfold withEmptyOption.
    destruct first; [contradiction|reflexivity].
Qed.

(** Options a, b with a current at index 0: both selects list the empty
    option, a, b; the dynamic choice reports index 1. *)
Lemma choice_NewInput_witness :
  let single := sampleField "size" (model.VChoice "a") [] in
  let dynamic := sampleField "pick" (model.VDynamicChoice 0 ["a"; "b"]) [] in
  @ModelChoiceController.NewInput sampleLibrary false single sampleForm
  = Returns
      (Some (choiceSelect sampleForm single
               (StringsSelectModel [""; "a"; "b"] "a")), None)
  /\ @ModelDynamicChoiceController.NewInput sampleLibrary false dynamic
       sampleForm
     = Returns
         (Some (choiceSelect sampleForm dynamic
                  (IndexedStringsSelectModel [""; "a"; "b"] 1)), None).
Proof.
  intros single dynamic.
  assert (Hindex : min_int <= 0 < max_int) by (vm_compute; split; congruence).
  destruct (choice_NewInput_empty_option
              sampleLibrary false sampleForm single "a" dynamic 0 ["a"; "b"]
              eq_refl eq_refl Hindex) as (Hsingle & Hdynamic & _).
  split; [exact Hsingle|exact Hdynamic].
Defined.

(** ** The maximal length of string and password fields *)

Lemma clampMaxlen_declared (maxlen : Z) (textField : TextField.t) :
  let clamped := clampMaxlen (maxlen, true) textField in
  TextField.MaxLength clamped = maxlen
  /\ TextField.Size clamped = Z.min maxlen (TextField.Size textField)
  /\ TextField.Text clamped = TextField.Text textField
  /\ TextField.Type_ clamped = TextField.Type_ textField
  /\ TextField.Name clamped = TextField.Name textField.
Proof.
  simpl. repeat split.
  destruct (Z.ltb_spec maxlen (TextField.Size textField)); lia.
Qed.

(** C8.  On a string field and on a password field that declare a
    maximal length, [NewInput] returns a text field, under a label if
    asked, showing the field's text.  Its [MaxLength] is the declared
    limit; its [Size] is the limit when the limit is smaller than the size
    the form asks for, and the size the form asks for when it is not. *)
Theorem text_NewInput_maxlen :
  forall (lib : Library) (withLabel : bool) (form : Form)
         (str : model.MetaData) (text : string) (maxlen : Z)
         (password : model.MetaData) (secret : string) (maxlen' : Z),
    model.Value str = model.VString text ->
    String_Maxlen str = (maxlen, true) ->
    model.Value password = model.VPassword secret ->
    Password_Maxlen password = (maxlen', true) ->
    (exists textField,
        ModelStringController.NewInput withLabel str form
        = labelled withLabel form (TextFieldView textField) str
        /\ TextField.Text textField = text
        /\ TextField.MaxLength textField = maxlen
        /\ TextField.Size textField
           = (if maxlen <? GetInputSize form str then maxlen
              else GetInputSize form str))
    /\ (exists textField,
           ModelPasswordController.NewInput withLabel password form
           = labelled withLabel form (TextFieldView textField) password
           /\ TextField.Text textField = secret
           /\ TextField.Type_ textField = PasswordTextField
           /\ TextField.MaxLength textField = maxlen'
           /\ TextField.Size textField
              = (if maxlen' <? GetInputSize form password then maxlen'
                 else GetInputSize form password)).
Proof.
  intros lib withLabel form str text maxlen password secret maxlen'
         Hstr Hlimit Hpassword Hlimit'.
  split.
  - unfold ModelStringController.NewInput. rewrite Hstr, Hlimit.
    eexists. split; [reflexivity|]. repeat split.
  - unfold ModelPasswordController.NewInput. rewrite Hpassword, Hlimit'.
    eexists. split; [reflexivity|]. repeat split.
Qed.

(** A string field declaring maxlen 5, on a form asking for size 10:
    the text field has [MaxLength] 5 and [Size] 5.  A password field
    declaring maxlen 64 keeps the size 10. *)
Lemma text_NewInput_maxlen_witness :
  let str := sampleField "name" (model.VString "Ada") [("maxlen", "5")] in
  let password :=
    sampleField "pass" (model.VPassword "pw") [("maxlen", "64")] in
  (exists textField,
      @ModelStringController.NewInput sampleLibrary false str sampleForm
      = Returns (Some (TextFieldView textField), None)
      /\ TextField.MaxLength textField = 5
      /\ TextField.Size textField = 5)
  /\ (exists textField,
         @ModelPasswordController.NewInput sampleLibrary false password
           sampleForm
         = Returns (Some (TextFieldView textField), None)
         /\ TextField.MaxLength textField = 64
         /\ TextField.Size textField = 10).
Proof.
  intros str password.
  destruct (text_NewInput_maxlen
              sampleLibrary false sampleForm str "Ada" 5 password "pw" 64
              eq_refl eq_refl eq_refl eq_refl)
    as ((tf & Hrun & _ & Hmax & Hsize)
        & (tf' & Hrun' & _ & _ & Hmax' & Hsize')).
  split.
  - exists tf. repeat split; [exact Hrun|exact Hmax|exact Hsize].
  - exists tf'. repeat split; [exact Hrun'|exact Hmax'|exact Hsize'].
Defined.

(** ** Uploads: ModelFileController.SetValue and ModelBlobController.SetValue *)

Lemma readAndClosed_stillOpen (key : string) :
  stillOpen (readAndClosed key) [] = [].
Proof.
  unfold readAndClosed. cbn [stillOpen List.filter].
  now rewrite String.eqb_refl.
Qed.

(** [FormFile] hands out a stream only with a header and no error. *)
Lemma FormFile_cases (r : http.Request) (key : string) :
  (exists file header e, http.FormFile r key = (file, header, Some e))
  \/ (exists header,
         http.FormFile r key
         = (Some (multipart.content header), Some header, None)).
Proof.
  unfold http.FormFile.
  destruct (http.multipartErr r) as [e|]; [left; eauto|].
  destruct (http.MultipartFile r !! key) as [[|fh rest]|];
    [left; eauto| |left; eauto].
  destruct (multipart.openErr fh) as [e|]; [left; eauto|right; eauto].
Qed.

Lemma ModelFileController_SetValue_binding ctx metaData form name data :
  model.Value metaData = model.VFile name data ->
  exists b,
    ModelFileController.SetValue ctx metaData form = Returns b
    /\ uploadBinding (Request ctx) (model.Selector metaData)
         (model.Value metaData)
         (fun header bytes =>
            model.VFile (multipart.Filename header) bytes)
         b.
Proof.
  intros Hfile. unfold ModelFileController.SetValue, uploadBinding.
  rewrite Hfile.
  destruct (FormFile_cases (Request ctx) (model.Selector metaData))
    as [(file & header & e & ->)|(header & ->)].
  - destruct file, header; (eexists; split; [reflexivity|]); split.
    all: try (intros ? ? ? Heq; inversion Heq; reflexivity).
    all: try (intros ? ? Heq; inversion Heq).
  - unfold ioutil.ReadAll. cbn [fst snd].
    destruct (multipart.readErr (multipart.content header)) as [e|] eqn:Hread;
      (eexists; split; [reflexivity|]); cbn [streams err stored app].
    all: split; [intros ? ? ? Heq; inversion Heq|].
    all: intros ? ? Heq; inversion Heq; subst; rewrite Hread.
    all: split; [reflexivity|]; split; [apply readAndClosed_stillOpen|].
    all: split; [intros ? Herr; inversion Herr; subst; auto|].
    all: try discriminate; auto.
Qed.

Lemma ModelBlobController_SetValue_binding ctx metaData form data :
  model.Value metaData = model.VBlob data ->
  exists b,
    ModelBlobController.SetValue ctx metaData form = Returns b
    /\ uploadBinding (Request ctx) (model.Selector metaData)
         (model.Value metaData)
         (fun _ bytes => model.VBlob bytes)
         b.
Proof.
  intros Hblob. unfold ModelBlobController.SetValue, uploadBinding.
  rewrite Hblob.
  destruct (FormFile_cases (Request ctx) (model.Selector metaData))
    as [(file & header & e & ->)|(header & ->)].
  - destruct file, header; (eexists; split; [reflexivity|]); split.
    all: try (intros ? ? ? Heq; inversion Heq; reflexivity).
    all: try (intros ? ? Heq; inversion Heq).
  - unfold ioutil.ReadAll. cbn [fst snd].
    destruct (multipart.readErr (multipart.content header)) as [e|] eqn:Hread;
      (eexists; split; [reflexivity|]); cbn [streams err stored app].
    all: split; [intros ? ? ? Heq; inversion Heq|].
    all: intros ? ? Heq; inversion Heq; subst; rewrite Hread.
    all: split; [reflexivity|]; split; [apply readAndClosed_stillOpen|].
    all: split; [intros ? Herr; inversion Herr; subst; auto|].
    all: try discriminate; auto.
Qed.

(** A binding of an upload that reports an error kept the field, and one
    that changed the field read the stream to its end without error. *)
Lemma uploadBinding_error_keeps r key kept filled b :
  uploadBinding r key kept filled b ->
  (forall e, err b = Some e -> stored b = kept)
  /\ (stored b <> kept -> err b = None /\ streams b = readAndClosed key).
Proof.
  intros [Hfailed Hopened].
  destruct (FormFile_cases r key)
    as [(file & header & e & Hform)|(header & Hform)].
  - rewrite (Hfailed _ _ _ Hform). cbn [err stored]. split; [auto|tauto].
  - destruct (Hopened _ _ Hform) as (Hops & _ & Hbad & Hgood).
    destruct (snd (ioutil.ReadAll (multipart.content header))) as [e|].
    + destruct (Hbad e eq_refl) as [_ Hkept]. split; [auto|tauto].
    + destruct (Hgood eq_refl) as (Hnil & _). split; [|auto].
      intros e He. congruence.
Qed.

(** C9.  On a file field and on a blob field, [SetValue] returns, and
    with the field's selector as form key:
    - when [FormFile] fails, its error is returned as it is, no stream
      having been opened;
    - when [FormFile] hands out a stream, the stream is opened, read to
      its end and closed, none being open at return, whether reading
      fails or not; a read error is returned as it is; without one the
      error is nil and the field holds every byte of the payload, and for
      a file field the uploaded file name. *)
Theorem upload_SetValue_reads_and_closes :
  forall (ctx : Context) (form : Form)
         (file : model.MetaData) (name : string) (data : list Byte.byte)
         (blob : model.MetaData) (data' : list Byte.byte),
    model.Value file = model.VFile name data ->
    model.Value blob = model.VBlob data' ->
    (exists b,
        ModelFileController.SetValue ctx file form = Returns b
        /\ uploadBinding (Request ctx) (model.Selector file)
             (model.VFile name data)
             (fun header bytes =>
                model.VFile (multipart.Filename header) bytes)
             b)
    /\ (exists b,
           ModelBlobController.SetValue ctx blob form = Returns b
           /\ uploadBinding (Request ctx) (model.Selector blob)
                (model.VBlob data')
                (fun _ bytes => model.VBlob bytes)
                b).
Proof.
  intros ctx form file name data blob data' Hfile Hblob. split.
  - rewrite <- Hfile. eapply ModelFileController_SetValue_binding, Hfile.
  - rewrite <- Hblob. eapply ModelBlobController_SetValue_binding, Hblob.
Qed.

(** C10.  On a file field and on a blob field, [SetValue] returns, and
    whenever it returns an error the field holds what it held before the
    call; a field that changed was written with a nil error after its
    stream had been read to the end. *)
Theorem upload_SetValue_error_keeps_field :
  forall (ctx : Context) (form : Form)
         (file : model.MetaData) (name : string) (data : list Byte.byte)
         (blob : model.MetaData) (data' : list Byte.byte),
    model.Value file = model.VFile name data ->
    model.Value blob = model.VBlob data' ->
    (exists b,
        ModelFileController.SetValue ctx file form = Returns b
        /\ (forall e, err b = Some e -> stored b = model.VFile name data)
        /\ (stored b <> model.VFile name data ->
            err b = None
            /\ streams b = readAndClosed (model.Selector file)))
    /\ (exists b,
           ModelBlobController.SetValue ctx blob form = Returns b
           /\ (forall e, err b = Some e -> stored b = model.VBlob data')
           /\ (stored b <> model.VBlob data' ->
               err b = None
               /\ streams b = readAndClosed (model.Selector blob))).
Proof.
  intros ctx form file name data blob data' Hfile Hblob. split.
  - destruct (ModelFileController_SetValue_binding ctx file form _ _ Hfile)
      as (b & Hrun & Hbinding).
    rewrite Hfile in Hbinding.
    exists b. split; [exact Hrun|].
    exact (uploadBinding_error_keeps _ _ _ _ _ Hbinding).
  - destruct (ModelBlobController_SetValue_binding ctx blob form _ Hblob)
      as (b & Hrun & Hbinding).
    rewrite Hblob in Hbinding.
    exists b. split; [exact Hrun|].
    exact (uploadBinding_error_keeps _ _ _ _ _ Hbinding).
Qed.

(** Binding [avatar] to a file field stores the name [x.png] and the three
    bytes; binding [raw] to a blob field returns the read error; both
    streams are closed at return. *)
Lemma upload_SetValue_reads_and_closes_witness :
  let file := sampleField "avatar" (model.VFile "old.png" []) [] in
  let blob := sampleField "raw" (model.VBlob [Byte.xff]) [] in
  ((exists b,
       ModelFileController.SetValue sampleUploads file sampleForm = Returns b
       /\ uploadBinding (Request sampleUploads) "avatar"
            (model.VFile "old.png" [])
            (fun header bytes =>
               model.VFile (multipart.Filename header) bytes)
            b)
   /\ (exists b,
          ModelBlobController.SetValue sampleUploads blob sampleForm
          = Returns b
          /\ uploadBinding (Request sampleUploads) "raw"
               (model.VBlob [Byte.xff])
               (fun _ bytes => model.VBlob bytes)
               b))
  /\ ModelFileController.SetValue sampleUploads file sampleForm
     = Returns {| stored := model.VFile "x.png" [Byte.x89; Byte.x50; Byte.x4e];
                  streams := [Open "avatar"; Read "avatar"; Close "avatar"];
                  err := None |}
  /\ ModelBlobController.SetValue sampleUploads blob sampleForm
     = Returns {| stored := model.VBlob [Byte.xff];
                  streams := [Open "raw"; Read "raw"; Close "raw"];
                  err := Some (ErrForeign "unexpected EOF") |}.
Proof.
  intros file blob. split.
  - exact (upload_SetValue_reads_and_closes
             sampleUploads sampleForm file "old.png" [] blob [Byte.xff]
             eq_refl eq_refl).
  - split; vm_compute; reflexivity.
Defined.

(** The broken upload [raw] leaves the blob field as it was; a file field
    bound to a key with no upload keeps its name and data. *)
Lemma upload_SetValue_error_keeps_field_witness :
  let file := sampleField "missing" (model.VFile "old.png" [Byte.x01]) [] in
  let blob := sampleField "raw" (model.VBlob [Byte.xff]) [] in
  ((exists b,
       ModelFileController.SetValue sampleUploads file sampleForm = Returns b
       /\ (forall e,
              err b = Some e -> stored b = model.VFile "old.png" [Byte.x01])
       /\ (stored b <> model.VFile "old.png" [Byte.x01] ->
           err b = None /\ streams b = readAndClosed "missing"))
   /\ (exists b,
          ModelBlobController.SetValue sampleUploads blob sampleForm
          = Returns b
          /\ (forall e, err b = Some e -> stored b = model.VBlob [Byte.xff])
          /\ (stored b <> model.VBlob [Byte.xff] ->
              err b = None /\ streams b = readAndClosed "raw")))
  /\ ModelFileController.SetValue sampleUploads file sampleForm
     = Returns {| stored := model.VFile "old.png" [Byte.x01];
                  streams := [];
                  err := Some http.ErrMissingFile |}.
Proof.
  intros file blob. split.
  - exact (upload_SetValue_error_keeps_field
             sampleUploads sampleForm file "old.png" [Byte.x01]
             blob [Byte.xff] eq_refl eq_refl).
  - vm_compute. reflexivity.
Defined.

(** ** One controller per model type *)

(** C6.  For every field descriptor, the controllers among the sixteen
    per-type controllers that report [Supports] are: the one controller
    dedicated to the field's type when the type is one of the sixteen
    model value types, and none otherwise; so at most one in every case.
    For a field of any other type the list itself reports no support, and
    [NewInput] and [SetValue] of the list return
    [ErrFormFieldTypeNotSupported] with the descriptor. *)
Theorem perTypeControllers_support_at_most_once :
  forall (lib : Library) (withLabel : bool) (ctx : Context)
         (metaData : model.MetaData) (form : Form),
    let supporters :=
      List.filter (claims metaData form) perTypeControllers in
    length perTypeControllers = 16%nat
    /\ (length supporters <= 1)%nat
    /\ supporters
       = match controllerOf (model.TypeOf (model.Value metaData)) with
         | Some c => [c]
         | None => []
         end
    /\ match model.TypeOf (model.Value metaData) with
       | model.Other _ =>
           supporters = []
           /\ FormFieldControllers.Supports perTypeControllers metaData form
              = false
           /\ FormFieldControllers.NewInput perTypeControllers withLabel
                metaData form
              = Returns (None, Some (ErrFormFieldTypeNotSupported metaData))
           /\ FormFieldControllers.SetValue perTypeControllers ctx
                metaData form
              = Returns
                  {| stored := model.Value metaData;
                     streams := [];
                     err := Some (ErrFormFieldTypeNotSupported metaData) |}
       | _ =>
           length supporters = 1%nat
           /\ FormFieldControllers.Supports perTypeControllers metaData form
              = true
       end.
Proof.
  intros lib withLabel ctx metaData form supporters.
  assert (Hsupporters :
            supporters
            = match controllerOf (model.TypeOf (model.Value metaData)) with
              | Some c => [c]
              | None => []
              end).
  { subst supporters. destruct metaData as [selector [] attribs]; reflexivity. }
  split; [reflexivity|]. split.
  { rewrite Hsupporters. destruct (controllerOf _); simpl; lia. }
  split; [exact Hsupporters|].
  clear Hsupporters. subst supporters.
  destruct metaData as [selector [] attribs]; repeat split; reflexivity.
Qed.

(** ** Span.Render *)

Lemma openTag_writer (self : Span.t) (response : Response) :
  XML (Span.openTag self response)
  = {| XMLWriter.written :=
         XMLWriter.written (XML response)
         ++ XMLWriter.pendingBracket (XML response)
         ++ XMLWriter.TagStart "span" :: spanAttributes self;
       XMLWriter.tagStack := "span" :: XMLWriter.tagStack (XML response);
       XMLWriter.inOpenTag := true |}.
Proof.
  unfold Span.openTag, spanAttributes, XMLWriter.AttribIfNotDefault.
  cbn [XML]. destruct (String.eqb (Span.Class self) "");
    unfold XMLWriter.Attrib, XMLWriter.OpenTag;
    cbn [XMLWriter.written XMLWriter.tagStack XMLWriter.inOpenTag];
    f_equal; repeat rewrite <- app_assoc; reflexivity.
Qed.


(** X18.  A span whose content, if it has one, leaves open the tags it
    found open and only adds output renders without panic on every
    response, and keeps that contract itself: the tags open afterwards
    are those open before and the output has only grown. *)
Lemma Span_Render_wellBracketed (self : Span.t) :
  (forall content, Span.Content self = Some content -> wellBracketed content) ->
  forall response,
    exists final err inner,
      Span.Render self response = Returns (final, err)
      /\ XMLWriter.tagStack (XML final) = XMLWriter.tagStack (XML response)
      /\ XMLWriter.written (XML final)
         = XMLWriter.written (XML response) ++ inner.
Proof.
  intros Hcontent response.
  destruct (Span.renderContent self (Span.openTag self response))
    as [rendered err] eqn:Hrendered.
  assert (Hkept :
            XMLWriter.tagStack (XML rendered)
            = XMLWriter.tagStack (XML (Span.openTag self response))
            /\ exists inner,
                XMLWriter.written (XML rendered)
                = XMLWriter.written (XML (Span.openTag self response))
                  ++ inner).
  { unfold Span.renderContent in Hrendered.
    destruct (Span.Content self) as [content|] eqn:Hsome.
    - pose proof (Hcontent content eq_refl (Span.openTag self response))
        as Hc.
      rewrite Hrendered in Hc. exact Hc.
    - injection Hrendered as <- <-. split; [reflexivity|].
      exists []. now rewrite app_nil_r. }
  destruct Hkept as (Hstack & inner & Hinner).
  unfold Span.Render. rewrite Hrendered.
  unfold XMLWriter.ForceCloseTag. rewrite Hstack, Hinner, openTag_writer.
  cbn [XMLWriter.tagStack XMLWriter.written].
  do 3 eexists. split; [reflexivity|]. split; [reflexivity|].
  cbn [XML XMLWriter.written]. repeat rewrite <- app_assoc. reflexivity.
Qed.



(** The renderings the spec shows: a span of class c with no content, and
    a span with the default class, which has no class attribute. *)
Lemma Span_Render_text :
  let q := XMLWriter.quote in
  (exists final,
      Span.Render
        {| Span.id := "x"; Span.Class := "c"; Span.Content := None |}
        sampleResponse
      = Returns (final, None)
      /\ XMLWriter.output (XML final)
         = ("<span id=" ++ q ++ "x" ++ q ++ " class=" ++ q ++ "c" ++ q
            ++ "></span>")%string)
  /\ (exists final,
         Span.Render
           {| Span.id := "x"; Span.Class := ""; Span.Content := None |}
           sampleResponse
         = Returns (final, None)
         /\ XMLWriter.output (XML final)
            = ("<span id=" ++ q ++ "x" ++ q ++ "></span>")%string).
Proof. split; eexists; split; reflexivity. Qed.

(** * Further properties *)

(** ** The list as a controller *)

Section ListDispatch.

Variables (metaData : model.MetaData) (form : Form).

Lemma Supports_app (a b : FormFieldControllers.t) :
  FormFieldControllers.Supports (a ++ b) metaData form
  = FormFieldControllers.Supports a metaData form
    || FormFieldControllers.Supports b metaData form.
Proof.
  induction a as [|c a IH]; simpl; [reflexivity|].
  destruct (FormFieldController.Supports c metaData form); auto.
Qed.

Lemma NewInput_app (a b : FormFieldControllers.t) withLabel :
  FormFieldControllers.NewInput (a ++ b) withLabel metaData form
  = if FormFieldControllers.Supports a metaData form
    then FormFieldControllers.NewInput a withLabel metaData form
    else FormFieldControllers.NewInput b withLabel metaData form.
Proof.
  induction a as [|c a IH]; simpl; [reflexivity|].
  destruct (FormFieldController.Supports c metaData form); auto.
Qed.

Lemma SetValue_app (a b : FormFieldControllers.t) ctx :
  FormFieldControllers.SetValue (a ++ b) ctx metaData form
  = if FormFieldControllers.Supports a metaData form
    then FormFieldControllers.SetValue a ctx metaData form
    else FormFieldControllers.SetValue b ctx metaData form.
Proof.
  induction a as [|c a IH]; simpl; [reflexivity|].
  destruct (FormFieldController.Supports c metaData form); auto.
Qed.

(** Controllers that decline the field can be dropped from the list. *)
Lemma dispatch_filter (self : FormFieldControllers.t) withLabel ctx :
  let keen := List.filter (claims metaData form) self in
  FormFieldControllers.Supports self metaData form
  = FormFieldControllers.Supports keen metaData form
  /\ FormFieldControllers.NewInput self withLabel metaData form
     = FormFieldControllers.NewInput keen withLabel metaData form
  /\ FormFieldControllers.SetValue self ctx metaData form
     = FormFieldControllers.SetValue keen ctx metaData form.
Proof.
  induction self as [|c self IH]; simpl; [auto|].
  destruct (claims metaData form c) eqn:Hc; unfold claims in Hc;
    simpl; rewrite Hc; auto.
Qed.

Lemma filter_Permutation_claims (self other : FormFieldControllers.t) :
  Permutation self other ->
  Permutation (List.filter (claims metaData form) self)
    (List.filter (claims metaData form) other).
Proof.
  induction 1 as [|c l l' _ IH|c d l|l l' l'' _ IH _ IH']; simpl.
  - constructor.
  - destruct (claims metaData form c); [constructor|]; exact IH.
  - destruct (claims metaData form c), (claims metaData form d);
      try reflexivity. constructor.
  - etransitivity; eassumption.
Qed.

End ListDispatch.

(** X1.  Dispatch over a concatenation asks the first list if it supports
    the field and the second list otherwise, for all three operations; a
    list standing as one controller in front of another list dispatches as
    the two lists concatenated. *)
Theorem FormFieldControllers_concatenate :
  forall (a b : FormFieldControllers.t) (withLabel : bool) (ctx : Context)
         (metaData : model.MetaData) (form : Form),
    let first := FormFieldControllers.Supports a metaData form in
    FormFieldControllers.Supports (a ++ b) metaData form
    = first || FormFieldControllers.Supports b metaData form
    /\ FormFieldControllers.NewInput (a ++ b) withLabel metaData form
       = (if first
          then FormFieldControllers.NewInput a withLabel metaData form
          else FormFieldControllers.NewInput b withLabel metaData form)
    /\ FormFieldControllers.SetValue (a ++ b) ctx metaData form
       = (if first
          then FormFieldControllers.SetValue a ctx metaData form
          else FormFieldControllers.SetValue b ctx metaData form)
    /\ FormFieldControllers.Supports (asController a :: b) metaData form
       = FormFieldControllers.Supports (a ++ b) metaData form
    /\ FormFieldControllers.NewInput (asController a :: b) withLabel
         metaData form
       = FormFieldControllers.NewInput (a ++ b) withLabel metaData form
    /\ FormFieldControllers.SetValue (asController a :: b) ctx metaData form
       = FormFieldControllers.SetValue (a ++ b) ctx metaData form.
Proof.
  intros a b withLabel ctx metaData form first. subst first.
  rewrite Supports_app, NewInput_app, SetValue_app.
  cbn [FormFieldControllers.Supports FormFieldControllers.NewInput
       FormFieldControllers.SetValue asController
       FormFieldController.Supports FormFieldController.NewInput
       FormFieldController.SetValue].
  destruct (FormFieldControllers.Supports a metaData form); auto 10.
Qed.

(** X2.  What [Supports] of a list answers is what its dispatch does:
    when it is true some controller of the list supports the field and
    [NewInput] and [SetValue] are that controller's; when it is false
    both return [ErrFormFieldTypeNotSupported] with the descriptor, as the
    interface documents for a model that is not supported. *)
Theorem FormFieldControllers_Supports_decides :
  forall (self : FormFieldControllers.t) (withLabel : bool) (ctx : Context)
         (metaData : model.MetaData) (form : Form),
    if FormFieldControllers.Supports self metaData form
    then exists c,
        In c self
        /\ FormFieldController.Supports c metaData form = true
        /\ FormFieldControllers.NewInput self withLabel metaData form
           = FormFieldController.NewInput c withLabel metaData form
        /\ FormFieldControllers.SetValue self ctx metaData form
           = FormFieldController.SetValue c ctx metaData form
    else (forall c,
             In c self ->
             FormFieldController.Supports c metaData form = false)
         /\ FormFieldControllers.NewInput self withLabel metaData form
            = Returns (None, Some (ErrFormFieldTypeNotSupported metaData))
         /\ FormFieldControllers.SetValue self ctx metaData form
            = Returns
                {| stored := model.Value metaData;
                   streams := [];
                   err := Some (ErrFormFieldTypeNotSupported metaData) |}.
Proof.
  intros self withLabel ctx metaData form.
  induction self as [|d self IH]; simpl.
  - split; [intros c []|]. split; reflexivity.
  - destruct (FormFieldController.Supports d metaData form) eqn:Hd.
    + exists d. auto.
    + destruct (FormFieldControllers.Supports self metaData form).
      * destruct IH as (c & Hin & Hc & Hnew & Hset). exists c. auto.
      * destruct IH as (Hnone & Hnew & Hset). split; [|auto].
        intros c [<-|Hin]; auto.
Qed.

(** In a list where at most one controller supports the field, the order
    of the controllers does not matter for that field. *)
Lemma dispatch_exclusive_order (self other : FormFieldControllers.t)
    withLabel ctx metaData form :
  Permutation self other ->
  (length (List.filter (claims metaData form) self) <= 1)%nat ->
  FormFieldControllers.Supports other metaData form
  = FormFieldControllers.Supports self metaData form
  /\ FormFieldControllers.NewInput other withLabel metaData form
     = FormFieldControllers.NewInput self withLabel metaData form
  /\ FormFieldControllers.SetValue other ctx metaData form
     = FormFieldControllers.SetValue self ctx metaData form.
Proof.
  intros Hperm Hone.
  assert (Hsame : List.filter (claims metaData form) other
                  = List.filter (claims metaData form) self).
  { pose proof (filter_Permutation_claims metaData form _ _ Hperm) as Hkeen.
    destruct (List.filter (claims metaData form) self) as [|c [|d rest]].
    - now apply Permutation_nil.
    - now apply Permutation_length_1_inv.
    - simpl in Hone. lia. }
  destruct (dispatch_filter metaData form self withLabel ctx)
    as (Hs & Hn & Hv).
  destruct (dispatch_filter metaData form other withLabel ctx)
    as (Hs' & Hn' & Hv').
  rewrite Hs, Hn, Hv, Hs', Hn', Hv', Hsame. auto.
Qed.

(** The supporters of a field among the sixteen controllers. *)
Lemma perTypeControllers_supporters `{Library} metaData form :
  List.filter (claims metaData form) perTypeControllers
  = match controllerOf (model.TypeOf (model.Value metaData)) with
    | Some c => [c]
    | None => []
    end.
Proof. destruct metaData as [selector [] attribs]; reflexivity. Qed.

(** X3.  The sixteen per-type controllers may be listed in any order: a
    list holding them in another order supports the same fields and
    returns the same from [NewInput] and [SetValue], for every field. *)
Theorem perTypeControllers_any_order :
  forall (lib : Library) (reordered : FormFieldControllers.t)
         (withLabel : bool) (ctx : Context)
         (metaData : model.MetaData) (form : Form),
    Permutation perTypeControllers reordered ->
    FormFieldControllers.Supports reordered metaData form
    = FormFieldControllers.Supports perTypeControllers metaData form
    /\ FormFieldControllers.NewInput reordered withLabel metaData form
       = FormFieldControllers.NewInput perTypeControllers withLabel
           metaData form
    /\ FormFieldControllers.SetValue reordered ctx metaData form
       = FormFieldControllers.SetValue perTypeControllers ctx metaData form.
Proof.
  intros lib reordered withLabel ctx metaData form Hperm.
  apply dispatch_exclusive_order; [exact Hperm|].
  rewrite perTypeControllers_supporters.
  destruct (controllerOf _); simpl; lia.
Qed.

(** The sixteen controllers listed backwards bind a checked box as the
    list in source order does. *)
Lemma perTypeControllers_any_order_witness :
  let ctx := sampleContext [("agree", ["on"])] [] in
  let metaData := sampleField "agree" (model.VBool false) [] in
  FormFieldControllers.SetValue (rev (@perTypeControllers sampleLibrary))
    ctx metaData sampleForm
  = FormFieldControllers.SetValue (@perTypeControllers sampleLibrary)
      ctx metaData sampleForm
  /\ FormFieldControllers.SetValue (rev (@perTypeControllers sampleLibrary))
       ctx metaData sampleForm
     = Returns {| stored := model.VBool true; streams := []; err := None |}.
Proof.
  intros ctx metaData.
  destruct (perTypeControllers_any_order
              sampleLibrary (rev (@perTypeControllers sampleLibrary))
              false ctx metaData sampleForm
              (Permutation_rev (@perTypeControllers sampleLibrary)))
    as (_ & _ & Hset).
  split; [exact Hset|]. rewrite Hset. vm_compute. reflexivity.
Defined.

(** ** Multi-line text: the cols and rows attributes *)

Lemma intAttrib_cases `{Library} (metaData : model.MetaData) (name : string) :
  (ModelTextController.intAttrib metaData name
   = Returns (attribValue metaData name)
   /\ ~ malformedInt metaData name)
  \/ ((exists msg, ModelTextController.intAttrib metaData name = Panics msg)
      /\ malformedInt metaData name).
Proof.
  unfold ModelTextController.intAttrib, attribValue, malformedInt.
  destruct (model.Attrib metaData StructTagKey name) as [str|].
  - destruct (strconv.Atoi str) as [n [e|]] eqn:Hatoi.
    + right. split; [eauto|]. exists str, e. now rewrite Hatoi.
    + left. split; [reflexivity|].
      intros (str' & e & [= <-] & Hbad). rewrite Hatoi in Hbad. discriminate.
  - left. split; [reflexivity|]. intros (str & e & Hsome & _). discriminate.
Qed.

(** X4.  On a text field [NewInput] never returns an error.  It panics
    exactly when the [cols] or the [rows] attribute is present and is not
    an integer [strconv.Atoi] accepts; otherwise it returns a text area,
    under a label if asked, showing the field's text, with [Cols] and
    [Rows] the attributes' numbers, zero for an absent attribute. *)
Theorem ModelTextController_NewInput_attributes :
  forall (lib : Library) (withLabel : bool) (metaData : model.MetaData)
         (form : Form) (text : string),
    model.Value metaData = model.VText text ->
    ((exists msg,
         ModelTextController.NewInput withLabel metaData form = Panics msg)
     <-> malformedInt metaData "cols" \/ malformedInt metaData "rows")
    /\ (~ (malformedInt metaData "cols" \/ malformedInt metaData "rows") ->
        ModelTextController.NewInput withLabel metaData form
        = labelled withLabel form
            (TextAreaView
               {| TextArea.Class := FieldInputClass form metaData;
                  TextArea.Name := model.Selector metaData;
                  TextArea.Text := text;
                  TextArea.Cols := attribValue metaData "cols";
                  TextArea.Rows := attribValue metaData "rows";
                  TextArea.Disabled := IsFieldDisabled form metaData;
                  TextArea.Placeholder :=
                    InputFieldPlaceholder form metaData |})
            metaData).
Proof.
  intros lib withLabel metaData form text Htext.
  unfold ModelTextController.NewInput. rewrite Htext.
  destruct (intAttrib_cases metaData "cols")
    as [[-> Hcols]|[[msg ->] Hcols]];
    [destruct (intAttrib_cases metaData "rows")
       as [[-> Hrows]|[[msg ->] Hrows]]|].
  - split; [|reflexivity]. split; [|tauto].
    intros [msg Hpanic]. unfold labelled in Hpanic.
    destruct withLabel; discriminate.
  - split; [|tauto]. split; eauto.
  - split; [|tauto]. split; eauto.
Qed.

(** A text field tagged with 80 columns and a malformed row count makes
    [NewInput] panic; with the row count left out it gets 80 columns and
    no rows. *)
Lemma ModelTextController_NewInput_witness :
  let tagged rows :=
    {| model.Selector := "bio";
       model.Value := model.VText "hi";
       model.Attribs := {[ "view" := list_to_map (("cols", "80") :: rows) ]}
    |} in
  (exists msg,
      @ModelTextController.NewInput sampleLibrary false
        (tagged [("rows", "ten")]) sampleForm
      = Panics msg)
  /\ @ModelTextController.NewInput sampleLibrary false (tagged []) sampleForm
     = Returns
         (Some (TextAreaView
                  {| TextArea.Class := "input";
                     TextArea.Name := "bio";
                     TextArea.Text := "hi";
                     TextArea.Cols := 80;
                     TextArea.Rows := 0;
                     TextArea.Disabled := false;
                     TextArea.Placeholder := "" |}),
          None).
Proof.
  intros tagged. split.
  - apply (proj1 (ModelTextController_NewInput_attributes
                    sampleLibrary false (tagged [("rows", "ten")])
                    sampleForm "hi" eq_refl)).
    right. exists "ten", strconv.ErrSyntax. split; vm_compute; reflexivity.
  - apply (proj2 (ModelTextController_NewInput_attributes
                    sampleLibrary false (tagged []) sampleForm "hi" eq_refl)).
    intros [(str & e & Hattr & Hbad)|(str & e & Hattr & Hbad)];
      vm_compute in Hattr; injection Hattr as <- || discriminate Hattr;
      vm_compute in Hbad; discriminate Hbad.
Defined.

(** ** Binding through the list of the sixteen controllers *)

(** X5.  For a field of one of the twelve types whose controller embeds
    [modelValueControllerBase], binding through the list returns a nil
    error, touches no stream and leaves in the field what [SetString]
    makes of the form value of the selector; a form without that key
    hands [SetString] the empty string. *)
Theorem perTypeControllers_SetValue_by_SetString :
  forall (lib : Library) (ctx : Context) (metaData : model.MetaData)
         (form : Form),
    bindsBySetString (model.TypeOf (model.Value metaData)) = true ->
    FormFieldControllers.SetValue perTypeControllers ctx metaData form
    = Returns
        {| stored :=
             SetString (model.Value metaData)
               (http.FormValue (Request ctx) (model.Selector metaData));
           streams := [];
           err := None |}
    /\ (http.Form (Request ctx) !! model.Selector metaData = None ->
        FormFieldControllers.SetValue perTypeControllers ctx metaData form
        = Returns
            {| stored := SetString (model.Value metaData) "";
               streams := [];
               err := None |}).
Proof.
  intros lib ctx metaData form Htype.
  assert (Hrun :
            FormFieldControllers.SetValue perTypeControllers ctx metaData form
            = Returns
                {| stored :=
                     SetString (model.Value metaData)
                       (http.FormValue (Request ctx)
                          (model.Selector metaData));
                   streams := [];
                   err := None |}).
  { destruct metaData as [selector [] attribs];
      try discriminate Htype; reflexivity. }
  split; [exact Hrun|].
  intros Habsent. rewrite Hrun, (FormValue_absent _ _ Habsent). reflexivity.
Qed.

(** An integer field bound from a form without its key is handed the
    empty string; a string field takes the submitted text. *)
Lemma perTypeControllers_SetValue_by_SetString_witness :
  FormFieldControllers.SetValue (@perTypeControllers sampleLibrary)
    (sampleContext [("name", ["Ada"; "Bob"])] [])
    (sampleField "name" (model.VString "old") []) sampleForm
  = Returns {| stored := model.VString "Ada"; streams := []; err := None |}
  /\ FormFieldControllers.SetValue (@perTypeControllers sampleLibrary)
       (sampleContext [] [])
       (sampleField "age" (model.VInt 7) []) sampleForm
     = Returns
         {| stored := @SetString sampleLibrary (model.VInt 7) "";
            streams := [];
            err := None |}.
Proof.
  split.
  - exact (proj1 (perTypeControllers_SetValue_by_SetString
                    sampleLibrary
                    (sampleContext [("name", ["Ada"; "Bob"])] [])
                    (sampleField "name" (model.VString "old") [])
                    sampleForm eq_refl)).
  - apply (proj2 (perTypeControllers_SetValue_by_SetString
                    sampleLibrary (sampleContext [] [])
                    (sampleField "age" (model.VInt 7) [])
                    sampleForm eq_refl)).
    vm_compute. reflexivity.
Defined.

(** What an upload binding can be: the field kept with no stream touched,
    or the stream opened, read and closed. *)
Lemma uploadBinding_shapes r key kept filled b :
  uploadBinding r key kept filled b ->
  stillOpen (streams b) [] = []
  /\ (streams b = [] \/ streams b = readAndClosed key)
  /\ (stored b = kept
      \/ exists header bytes, stored b = filled header bytes).
Proof.
  intros [Hfailed Hopened].
  destruct (FormFile_cases r key)
    as [(file & header & e & Hform)|(header & Hform)].
  - rewrite (Hfailed _ _ _ Hform). cbn [streams stored stillOpen]. auto.
  - destruct (Hopened _ _ Hform) as (Hops & Hclosed & Hbad & Hgood).
    split; [exact Hclosed|]. split; [auto|].
    destruct (snd (ioutil.ReadAll (multipart.content header))) as [e|].
    + left. now apply (Hbad e).
    + right. destruct (Hgood eq_refl) as (_ & Hstored & _). eauto.
Qed.

(** X6.  Binding through the list of the sixteen controllers never panics,
    whatever the field and the request, and leaves no upload stream open;
    only a file or a blob field has its stream touched, and then it is
    opened, read and closed. *)
Theorem perTypeControllers_SetValue_returns :
  forall (lib : Library) (ctx : Context) (metaData : model.MetaData)
         (form : Form),
    exists b,
      FormFieldControllers.SetValue perTypeControllers ctx metaData form
      = Returns b
      /\ stillOpen (streams b) [] = []
      /\ (streams b = []
          \/ (streams b = readAndClosed (model.Selector metaData)
              /\ (model.TypeOf (model.Value metaData) = model.File
                  \/ model.TypeOf (model.Value metaData) = model.Blob))).
Proof.
  intros lib ctx metaData form.
  destruct (model.Value metaData) eqn:Hfield.
  15: { destruct (ModelFileController_SetValue_binding
                    ctx metaData form _ _ Hfield) as (b & Hrun & Hbinding).
        apply uploadBinding_shapes in Hbinding as (Hclosed & Hops & _).
        exists b. split; [|split; [exact Hclosed|tauto]].
        rewrite <- Hrun. destruct metaData as [selector field attribs].
        cbn [model.Value] in Hfield. subst field. reflexivity. }
  15: { destruct (ModelBlobController_SetValue_binding
                    ctx metaData form _ Hfield) as (b & Hrun & Hbinding).
        apply uploadBinding_shapes in Hbinding as (Hclosed & Hops & _).
        exists b. split; [|split; [exact Hclosed|tauto]].
        rewrite <- Hrun. destruct metaData as [selector field attribs].
        cbn [model.Value] in Hfield. subst field. reflexivity. }
  all: destruct metaData as [selector field attribs];
    cbn [model.Value] in Hfield; subst field;
    eexists; (split; [reflexivity|]); cbn [streams]; auto.
Qed.

(** ** Rendering through the list of the sixteen controllers *)

(** X7.  [NewInput] through the list of the sixteen controllers returns a
    view with a nil error for every field of a supported type, with one
    exception: on a text field it panics when the [cols] or the [rows]
    attribute is malformed, and only then; with both attributes well
    formed or absent it returns a view with a nil error there too.  For
    any other type it returns no view and [ErrFormFieldTypeNotSupported].
    A view and an error never come together. *)
Theorem perTypeControllers_NewInput_outcomes :
  forall (lib : Library) (withLabel : bool) (metaData : model.MetaData)
         (form : Form),
    let result :=
      FormFieldControllers.NewInput perTypeControllers withLabel
        metaData form in
    match model.TypeOf (model.Value metaData) with
    | model.Other _ =>
        result = Returns (None, Some (ErrFormFieldTypeNotSupported metaData))
    | model.Text =>
        ((exists msg, result = Panics msg)
         <-> malformedInt metaData "cols" \/ malformedInt metaData "rows")
        /\ ((exists view, result = Returns (Some view, None))
            <-> ~ (malformedInt metaData "cols"
                   \/ malformedInt metaData "rows"))
    | _ => exists view, result = Returns (Some view, None)
    end.
Proof.
  intros lib withLabel metaData form result. subst result.
  destruct metaData as [selector field attribs].
  destruct field; cbn [model.TypeOf model.Value];
    try (destruct withLabel; eexists; reflexivity);
    try reflexivity.
  - change (FormFieldControllers.NewInput perTypeControllers withLabel
              {| model.Selector := selector; model.Value := model.VText s;
                 model.Attribs := attribs |} form)
      with (ModelTextController.NewInput withLabel
              {| model.Selector := selector; model.Value := model.VText s;
                 model.Attribs := attribs |} form).
    unfold ModelTextController.NewInput. cbn [model.Value].
    destruct (intAttrib_cases
                {| model.Selector := selector; model.Value := model.VText s;
                   model.Attribs := attribs |} "cols")
      as [[-> Hcols]|[[msg ->] Hcols]].
    + destruct (intAttrib_cases
                  {| model.Selector := selector;
                     model.Value := model.VText s;
                     model.Attribs := attribs |} "rows")
        as [[-> Hrows]|[[msg ->] Hrows]].
      * split; split.
        -- intros [msg Hpanic]. unfold labelled in Hpanic.
           destruct withLabel; discriminate Hpanic.
        -- tauto.
        -- tauto.
        -- intros _. destruct withLabel; eexists; reflexivity.
      * split; split; eauto.
        -- intros [view Hview]. discriminate Hview.
        -- tauto.
    + split; split; eauto.
      * intros [view Hview]. discriminate Hview.
      * tauto.
  - change (FormFieldControllers.NewInput perTypeControllers withLabel
              {| model.Selector := selector;
                 model.Value := model.VDynamicChoice index options;
                 model.Attribs := attribs |} form)
      with (ModelDynamicChoiceController.NewInput withLabel
              {| model.Selector := selector;
                 model.Value := model.VDynamicChoice index options;
                 model.Attribs := attribs |} form).
    unfold ModelDynamicChoiceController.NewInput. cbn [model.Value].
    destruct (lacksEmptyOption options), withLabel; eexists; reflexivity.
Qed.

(** ** The controllers with a [SetValue] of their own *)

(** X8.  Binding a boolean, multiple-choice, file or blob field through
    the list returns and leaves a value of the same type in the field,
    whether it reports an error or not; so the list supports the field
    after the call as before. *)
Theorem perTypeControllers_SetValue_keeps_type :
  forall (lib : Library) (ctx : Context) (metaData : model.MetaData)
         (form : Form),
    bindsItself (model.TypeOf (model.Value metaData)) = true ->
    exists b,
      FormFieldControllers.SetValue perTypeControllers ctx metaData form
      = Returns b
      /\ model.TypeOf (stored b) = model.TypeOf (model.Value metaData)
      /\ FormFieldControllers.Supports perTypeControllers
           (model.holding metaData (stored b)) form
         = true.
Proof.
  intros lib ctx metaData form Htype.
  assert (Hkept :
            exists b,
              FormFieldControllers.SetValue perTypeControllers ctx
                metaData form
              = Returns b
              /\ model.TypeOf (stored b)
                 = model.TypeOf (model.Value metaData)).
  { destruct (model.Value metaData) eqn:Hfield;
      try discriminate Htype.
    - destruct metaData as [selector field attribs].
      cbn [model.Value] in Hfield. subst field.
      eexists. split; reflexivity.
    - destruct metaData as [selector field attribs].
      cbn [model.Value] in Hfield. subst field.
      eexists. split; reflexivity.
    - destruct (ModelFileController_SetValue_binding
                  ctx metaData form _ _ Hfield) as (b & Hrun & Hbinding).
      apply uploadBinding_shapes in Hbinding as (_ & _ & Hstored).
      exists b. split.
      + rewrite <- Hrun. destruct metaData as [selector field attribs].
        cbn [model.Value] in Hfield. subst field. reflexivity.
      + destruct Hstored as [->|(header & bytes & ->)];
          [rewrite Hfield|]; reflexivity.
    - destruct (ModelBlobController_SetValue_binding
                  ctx metaData form _ Hfield) as (b & Hrun & Hbinding).
      apply uploadBinding_shapes in Hbinding as (_ & _ & Hstored).
      exists b. split.
      + rewrite <- Hrun. destruct metaData as [selector field attribs].
        cbn [model.Value] in Hfield. subst field. reflexivity.
      + destruct Hstored as [->|(header & bytes & ->)];
          [rewrite Hfield|]; reflexivity. }
  destruct Hkept as (b & Hrun & Hsame). exists b.
  split; [exact Hrun|]. split; [exact Hsame|].
  rewrite <- Hsame in Htype.
  destruct metaData as [selector field attribs]. unfold model.holding.
  cbn [model.Selector model.Attribs].
  destruct (stored b); try discriminate Htype; reflexivity.
Qed.

(** A file field bound to a key with no upload reports the missing file
    and is still a file field. *)
Lemma perTypeControllers_SetValue_keeps_type_witness :
  exists b,
    FormFieldControllers.SetValue (@perTypeControllers sampleLibrary)
      sampleUploads
      (sampleField "missing" (model.VFile "old.png" []) []) sampleForm
    = Returns b
    /\ model.TypeOf (stored b) = model.File
    /\ err b = Some http.ErrMissingFile.
Proof.
  destruct (perTypeControllers_SetValue_keeps_type
              sampleLibrary sampleUploads
              (sampleField "missing" (model.VFile "old.png" []) [])
              sampleForm eq_refl) as (b & Hrun & Htype & _).
  exists b. split; [exact Hrun|]. split; [exact Htype|].
  vm_compute in Hrun. injection Hrun as <-. reflexivity.
Defined.

(** ** URL, email and phone inputs *)

(** X9.  The input of a URL, an email or a phone field is a text field,
    under a label if asked, that shows the field's text at the size the
    form asks for.  Its [MaxLength] stays zero and its [Size] is never
    reduced, whatever maximal length the string and password types would
    report for the descriptor; only the email input has a type of its
    own. *)
Theorem plain_text_NewInput_unclamped :
  forall (lib : Library) (withLabel : bool) (metaData : model.MetaData)
         (form : Form) (text : string),
    model.Value metaData = model.VUrl text
    \/ model.Value metaData = model.VEmail text
    \/ model.Value metaData = model.VPhone text ->
    exists textField,
      FormFieldControllers.NewInput perTypeControllers withLabel
        metaData form
      = labelled withLabel form (TextFieldView textField) metaData
      /\ TextField.Text textField = text
      /\ TextField.Name textField = model.Selector metaData
      /\ TextField.MaxLength textField = 0
      /\ TextField.Size textField = GetInputSize form metaData
      /\ TextField.Type_ textField
         = match model.Value metaData with
           | model.VEmail _ => EmailTextField
           | _ => NormalTextField
           end.
Proof.
  intros lib withLabel metaData form text Hfield.
  destruct metaData as [selector field attribs]. cbn [model.Value] in *.
  destruct Hfield as [->|[->| ->]]; eexists; split;
    try reflexivity; repeat split.
Qed.

(** A URL field that declares maxlen 5 on a form asking for size 10 gets
    a text field of size 10 with no maximal length. *)
Lemma plain_text_NewInput_witness :
  exists textField,
    FormFieldControllers.NewInput (@perTypeControllers sampleLibrary) false
      (sampleField "home" (model.VUrl "http://a.b") [("maxlen", "5")])
      sampleForm
    = Returns (Some (TextFieldView textField), None)
    /\ TextField.MaxLength textField = 0
    /\ TextField.Size textField = 10
    /\ @String_Maxlen sampleLibrary
         (sampleField "home" (model.VUrl "http://a.b") [("maxlen", "5")])
       = (5, true).
Proof.
  destruct (plain_text_NewInput_unclamped
              sampleLibrary false
              (sampleField "home" (model.VUrl "http://a.b")
                 [("maxlen", "5")])
              sampleForm "http://a.b" (or_introl eq_refl))
    as (tf & Hrun & _ & _ & Hmax & Hsize & _).
  exists tf. repeat split; [exact Hrun|exact Hmax|exact Hsize].
Defined.

(** ** The checkbox of a boolean field *)

(** X10.  Binding a boolean field and rendering the field as it was left
    gives a checkbox named by the selector that is checked exactly when
    the form value of the selector is not empty.  The checkbox carries the
    form's label for the field when a label is asked for and an empty
    label otherwise; it is never wrapped by [AddStandardLabel]. *)
Theorem ModelBoolController_bind_then_render :
  forall (ctx : Context) (metaData : model.MetaData) (form : Form)
         (old withLabel : bool),
    model.Value metaData = model.VBool old ->
    exists b checkbox,
      ModelBoolController.SetValue ctx metaData form = Returns b
      /\ err b = None
      /\ ModelBoolController.NewInput withLabel
           (model.holding metaData (stored b)) form
         = Returns (Some (CheckboxView checkbox), None)
      /\ Checkbox.Name checkbox = model.Selector metaData
      /\ Checkbox.Checked checkbox
         = nonEmpty
             (http.FormValue (Request ctx) (model.Selector metaData))
      /\ Checkbox.Label checkbox
         = (if withLabel
            then FieldLabel form (model.holding metaData (stored b))
            else "").
Proof.
  intros ctx metaData form old withLabel Hbool.
  unfold ModelBoolController.SetValue. rewrite Hbool.
  do 2 eexists. split; [reflexivity|]. split; [reflexivity|].
  split; [reflexivity|]. repeat split.
Qed.

(** A checked box unchecks on a form that lacks the key. *)
Lemma ModelBoolController_bind_then_render_witness :
  exists b checkbox,
    ModelBoolController.SetValue (sampleContext [] [])
      (sampleField "agree" (model.VBool true) []) sampleForm
    = Returns b
    /\ ModelBoolController.NewInput true
         (model.holding (sampleField "agree" (model.VBool true) [])
            (stored b)) sampleForm
       = Returns (Some (CheckboxView checkbox), None)
    /\ Checkbox.Checked checkbox = false
    /\ Checkbox.Label checkbox = "agree".
Proof.
  destruct (ModelBoolController_bind_then_render
              (sampleContext [] [])
              (sampleField "agree" (model.VBool true) []) sampleForm
              true true eq_refl)
    as (b & checkbox & Hrun & _ & Hrender & _ & Hchecked & Hlabel).
  exists b, checkbox. repeat split;
    [exact Hrun|exact Hrender|exact Hchecked|exact Hlabel].
Defined.

(** ** The checkboxes of a multiple-choice field *)

Lemma checkboxesFrom_nth `{Library} metaData form m
    (options : list string) :
  forall (first i : nat) (opt : string),
    nth_error options i = Some opt ->
    nth_error
      (ModelMultipleChoiceController.checkboxesFrom metaData form m
         first options) i
    = Some
        (CheckboxView
           {| Checkbox.Label := opt;
              Checkbox.Class := FieldInputClass form metaData;
              Checkbox.Name :=
                ModelMultipleChoiceController.boxName metaData (first + i);
              Checkbox.Disabled := IsFieldDisabled form metaData;
              Checkbox.Checked := MultipleChoice_IsSet m opt |}).
Proof.
  induction options as [|o rest IH]; intros first i opt Hnth.
  - destruct i; discriminate.
  - destruct i as [|i]; simpl in *.
    + injection Hnth as ->. now rewrite Nat.add_0_r.
    + rewrite (IH (S first) i opt Hnth). do 3 f_equal. f_equal. lia.
Qed.

Lemma checkboxesFrom_length `{Library} metaData form m
    (options : list string) :
  forall first,
    length
      (ModelMultipleChoiceController.checkboxesFrom metaData form m
         first options)
    = length options.
Proof. induction options; intros first; simpl; auto. Qed.

(** X11.  The input of a multiple-choice field is one checkbox per
    option, in options order, under a label if asked: the checkbox at
    position [i] is labelled with the option at [i], named
    [<selector>_<i>], and its [Checked] is what [IsSet] of the field
    answers for that option. *)
Theorem ModelMultipleChoiceController_NewInput_boxes :
  forall (lib : Library) (withLabel : bool) (metaData : model.MetaData)
         (form : Form) (m : list string),
    model.Value metaData = model.VMultipleChoice m ->
    exists boxes,
      ModelMultipleChoiceController.NewInput withLabel metaData form
      = labelled withLabel form (Views boxes) metaData
      /\ length boxes = length (MultipleChoice_Options metaData)
      /\ forall i opt,
          nth_error (MultipleChoice_Options metaData) i = Some opt ->
          nth_error boxes i
          = Some
              (CheckboxView
                 {| Checkbox.Label := opt;
                    Checkbox.Class := FieldInputClass form metaData;
                    Checkbox.Name :=
                      (model.Selector metaData ++ "_" ++ sprint_d i)%string;
                    Checkbox.Disabled := IsFieldDisabled form metaData;
                    Checkbox.Checked := MultipleChoice_IsSet m opt |}).
Proof.
  intros lib withLabel metaData form m Hfield.
  unfold ModelMultipleChoiceController.NewInput. rewrite Hfield.
  eexists. split; [reflexivity|]. split; [apply checkboxesFrom_length|].
  intros i opt Hnth.
  exact (checkboxesFrom_nth _ _ _ _ 0%nat i opt Hnth).
Qed.

(** Options red, green, blue on a field whose [IsSet] answers yes for
    green alone: the second of three boxes is named colors_1 and is the
    one checked. *)
Lemma ModelMultipleChoiceController_NewInput_witness :
  exists boxes,
    @ModelMultipleChoiceController.NewInput sampleLibrary false
      (sampleField "colors" (model.VMultipleChoice ["green"]) []) sampleForm
    = Returns (Some (Views boxes), None)
    /\ length boxes = 3%nat
    /\ nth_error boxes 1
       = Some
           (CheckboxView
              {| Checkbox.Label := "green";
                 Checkbox.Class := "input";
                 Checkbox.Name := "colors_1";
                 Checkbox.Disabled := false;
                 Checkbox.Checked := true |}).
Proof.
  destruct (ModelMultipleChoiceController_NewInput_boxes
              sampleLibrary false
              (sampleField "colors" (model.VMultipleChoice ["green"]) [])
              sampleForm ["green"] eq_refl)
    as (boxes & Hrun & Hlength & Hboxes).
  exists boxes. split; [exact Hrun|]. split; [exact Hlength|].
  exact (Hboxes 1%nat "green" eq_refl).
Defined.

Lemma to_uint_not_Nil (n : nat) : Nat.to_uint n <> Decimal.Nil.
Proof.
  intros Hnil.
  assert (Hzero : n = 0%nat).
  { rewrite <- (DecimalNat.Unsigned.of_to n), Hnil. reflexivity. }
  subst n. discriminate Hnil.
Qed.

Lemma sprint_d_inj (i j : nat) : sprint_d i = sprint_d j -> i = j.
Proof.
  unfold sprint_d. intros Hsame.
  apply DecimalNat.Unsigned.to_uint_inj.
  pose proof (NilZero.usu _ (to_uint_not_Nil i)) as Hi.
  pose proof (NilZero.usu _ (to_uint_not_Nil j)) as Hj.
  rewrite Hsame, Hj in Hi. now injection Hi.
Qed.

Lemma append_inv_head (prefix a b : string) :
  (prefix ++ a)%string = (prefix ++ b)%string -> a = b.
Proof.
  induction prefix as [|c prefix IH]; simpl; [auto|].
  intros [= Hrest]. auto.
Qed.

(** X12.  The boxes of one multiple-choice field have pairwise distinct
    names: two positions with the same box name are the same position. *)
Theorem boxName_injective :
  forall (metaData : model.MetaData) (i j : nat),
    ModelMultipleChoiceController.boxName metaData i
    = ModelMultipleChoiceController.boxName metaData j ->
    i = j.
Proof.
  intros metaData i j Hsame.
  unfold ModelMultipleChoiceController.boxName in Hsame.
  apply append_inv_head in Hsame. apply (append_inv_head "_") in Hsame.
  now apply sprint_d_inj.
Qed.

(** Box 1 and box 12 of a field have different names. *)
Lemma boxName_injective_witness :
  let metaData := sampleField "colors" (model.VMultipleChoice []) [] in
  ModelMultipleChoiceController.boxName metaData 12 = "colors_12"
  /\ (12 = 12)%nat
  /\ ModelMultipleChoiceController.boxName metaData 1
     <> ModelMultipleChoiceController.boxName metaData 12.
Proof.
  intros metaData. split; [reflexivity|]. split.
  - exact (boxName_injective metaData 12 12 eq_refl).
  - intros Hsame. apply boxName_injective in Hsame. discriminate Hsame.
Defined.

Section MultipleChoiceRoundTrip.

Context `{Library}.
Variables (ctx : Context) (metaData : model.MetaData) (form : Form).
Variable m : list string.

(** When every box of the rendering got a non-empty form value exactly if
    it was shown checked, the loop of [SetValue] collects the labels of
    the boxes shown checked. *)
Lemma checkedOptions_checkedLabels (options : list string) :
  forall first,
    submitsChecked ctx
      (ModelMultipleChoiceController.checkboxesFrom metaData form m
         first options) ->
    checkedOptions ctx metaData first options
    = checkedLabels
        (ModelMultipleChoiceController.checkboxesFrom metaData form m
           first options).
Proof.
  induction options as [|opt rest IH]; intros first Hform; [reflexivity|].
  cbn [ModelMultipleChoiceController.checkboxesFrom] in *.
  unfold checkedOptions. cbn [length seq combine List.filter fst].
  pose proof (Hform _ (or_introl eq_refl)) as Hhead.
  cbn [Checkbox.Name Checkbox.Checked] in Hhead. rewrite Hhead.
  assert (Hrest :
            checkedOptions ctx metaData (S first) rest
            = checkedLabels
                (ModelMultipleChoiceController.checkboxesFrom
                   metaData form m (S first) rest)).
  { apply IH. intros cb Hin. apply Hform. now right. }
  unfold checkedOptions in Hrest.
  cbn [checkedLabels flat_map Checkbox.Checked Checkbox.Label].
  destruct (MultipleChoice_IsSet m opt); cbn [map snd app];
    now rewrite Hrest.
Qed.

End MultipleChoiceRoundTrip.

(** X13.  Round trip of a multiple-choice field: when the form carries a
    non-empty value under the name of exactly those boxes that [NewInput]
    built checked, [SetValue] returns a nil error, touches no stream and
    leaves selected the labels of the boxes built checked, in the order of
    the boxes, whatever was stored before. *)
Theorem ModelMultipleChoiceController_round_trip :
  forall (lib : Library) (ctx : Context) (metaData : model.MetaData)
         (form : Form) (m : list string) (boxes : list View),
    model.Value metaData = model.VMultipleChoice m ->
    ModelMultipleChoiceController.NewInput false metaData form
    = Returns (Some (Views boxes), None) ->
    (forall checkbox,
        In (CheckboxView checkbox) boxes ->
        nonEmpty
          (http.FormValue (Request ctx) (Checkbox.Name checkbox))
        = Checkbox.Checked checkbox) ->
    ModelMultipleChoiceController.SetValue ctx metaData form
    = Returns
        {| stored := model.VMultipleChoice (checkedLabels boxes);
           streams := [];
           err := None |}.
Proof.
  intros lib ctx metaData form m boxes Hfield Hrender Hform.
  unfold ModelMultipleChoiceController.NewInput, labelled in Hrender.
  rewrite Hfield in Hrender. injection Hrender as <-.
  unfold ModelMultipleChoiceController.SetValue.
  rewrite Hfield, appendChecked_checkedOptions. cbn [app].
  now rewrite (checkedOptions_checkedLabels ctx metaData form m).
Qed.

(** Options red, green, blue on a field holding green and pink, of which
    [IsSet] marks green; the form checks the box of green, colors_1:
    green alone is selected after the round trip. *)
Lemma ModelMultipleChoiceController_round_trip_witness :
  exists boxes,
    @ModelMultipleChoiceController.NewInput sampleLibrary false
      (sampleField "colors" (model.VMultipleChoice ["green"; "pink"]) [])
      sampleForm
    = Returns (Some (Views boxes), None)
    /\ @ModelMultipleChoiceController.SetValue sampleLibrary
         (sampleContext [("colors_1", ["on"])] [])
         (sampleField "colors" (model.VMultipleChoice ["green"; "pink"]) [])
         sampleForm
       = Returns
           {| stored := model.VMultipleChoice (checkedLabels boxes);
              streams := [];
              err := None |}
    /\ checkedLabels boxes = ["green"].
Proof.
  eexists. split; [reflexivity|]. split; [|reflexivity].
  apply (ModelMultipleChoiceController_round_trip
           sampleLibrary
           (sampleContext [("colors_1", ["on"])] [])
           (sampleField "colors"
              (model.VMultipleChoice ["green"; "pink"]) [])
           sampleForm ["green"; "pink"] _ eq_refl eq_refl).
  intros checkbox [[= <-]|[[= <-]|[[= <-]|[]]]]; vm_compute; reflexivity.
Defined.

Lemma checkedOptions_sublist ctx metaData (options : list string) :
  forall first, sublist (checkedOptions ctx metaData first options) options.
Proof.
  induction options as [|opt rest IH]; intros first.
  - constructor.
  - unfold checkedOptions. cbn [length seq combine List.filter fst].
    specialize (IH (S first)). unfold checkedOptions in IH.
    destruct (nonEmpty _); cbn [map snd]; now constructor.
Qed.

Lemma checkedOptions_none ctx metaData (options : list string) :
  forall first,
    (forall i,
        http.FormValue (Request ctx)
          (ModelMultipleChoiceController.boxName metaData i) = "") ->
    checkedOptions ctx metaData first options = [].
Proof.
  induction options as [|opt rest IH]; intros first Hnone; [reflexivity|].
  unfold checkedOptions. cbn [length seq combine List.filter fst].
  rewrite Hnone. cbn [nonEmpty String.eqb negb].
  exact (IH (S first) Hnone).
Qed.

(** X14.  Whatever the form holds, the selection [SetValue] leaves in a
    multiple-choice field is a sublist of the options: declared options
    only, in options order, none more often than the options list it.  A
    form with no box value at all clears the selection. *)
Theorem ModelMultipleChoiceController_SetValue_sublist :
  forall (lib : Library) (ctx : Context) (metaData : model.MetaData)
         (form : Form) (previous : list string),
    model.Value metaData = model.VMultipleChoice previous ->
    exists selected,
      ModelMultipleChoiceController.SetValue ctx metaData form
      = Returns
          {| stored := model.VMultipleChoice selected;
             streams := [];
             err := None |}
      /\ sublist selected (MultipleChoice_Options metaData)
      /\ (length selected <= length (MultipleChoice_Options metaData))%nat
      /\ ((forall i,
              http.FormValue (Request ctx)
                (model.Selector metaData ++ "_" ++ sprint_d i)%string = "")
          -> selected = []).
Proof.
  intros lib ctx metaData form previous Hfield.
  unfold ModelMultipleChoiceController.SetValue. rewrite Hfield.
  rewrite appendChecked_checkedOptions. cbn [app].
  eexists. split; [reflexivity|].
  pose proof (checkedOptions_sublist ctx metaData
                (MultipleChoice_Options metaData) 0) as Hsub.
  split; [exact Hsub|]. split; [now apply sublist_length|].
  apply checkedOptions_none.
Qed.

(** A form with no values clears a selection of green. *)
Lemma ModelMultipleChoiceController_SetValue_sublist_witness :
  exists selected,
    @ModelMultipleChoiceController.SetValue sampleLibrary
      (sampleContext [] [])
      (sampleField "colors" (model.VMultipleChoice ["green"]) []) sampleForm
    = Returns
        {| stored := model.VMultipleChoice selected;
           streams := [];
           err := None |}
    /\ selected = [].
Proof.
  destruct (ModelMultipleChoiceController_SetValue_sublist
              sampleLibrary (sampleContext [] [])
              (sampleField "colors" (model.VMultipleChoice ["green"]) [])
              sampleForm ["green"] eq_refl)
    as (selected & Hrun & _ & _ & Hclear).
  exists selected. split; [exact Hrun|]. apply Hclear.
  intros i. reflexivity.
Defined.

(** ** The options a choice select shows *)

Lemma injected_options (options : list string) :
  let shown := if lacksEmptyOption options then "" :: options else options in
  hd_error shown = Some ""
  /\ lacksEmptyOption shown = false
  /\ (shown = options \/ shown = "" :: options)
  /\ sublist options shown.
Proof.
  destruct options as [|[|c first] rest]; cbn; repeat split; auto;
    try reflexivity; now constructor.
Qed.

(** X15.  The select of a single-choice and of a dynamic-choice field
    always lists the empty option first, so that no selection can be
    shown; the field's own options follow in their order, none dropped;
    and the list shown needs no second injection: it has an empty first
    option itself. *)
Theorem choice_NewInput_shows_empty_first :
  forall (lib : Library) (withLabel : bool) (form : Form)
         (single : model.MetaData) (choice : string)
         (dynamic : model.MetaData) (index : Z) (options : list string),
    model.Value single = model.VChoice choice ->
    model.Value dynamic = model.VDynamicChoice index options ->
    exists shown shown' index',
      ModelChoiceController.NewInput withLabel single form
      = labelled withLabel form
          (choiceSelect form single (StringsSelectModel shown choice))
          single
      /\ ModelDynamicChoiceController.NewInput withLabel dynamic form
         = labelled withLabel form
             (choiceSelect form dynamic
                (IndexedStringsSelectModel shown' index'))
             dynamic
      /\ hd_error shown = Some "" /\ hd_error shown' = Some ""
      /\ lacksEmptyOption shown = false /\ lacksEmptyOption shown' = false
      /\ sublist (Choice_Options single) shown
      /\ sublist options shown'
      /\ (length shown <= S (length (Choice_Options single)))%nat
      /\ (length shown' <= S (length options))%nat.
Proof.
  intros lib withLabel form single choice dynamic index options
         Hsingle Hdynamic.
  unfold ModelChoiceController.NewInput, ModelDynamicChoiceController.NewInput.
  rewrite Hsingle, Hdynamic.
  destruct (injected_options (Choice_Options single))
    as (Hhd & Hlacks & Hshape & Hsub).
  destruct (injected_options options) as (Hhd' & Hlacks' & Hshape' & Hsub').
  cbv zeta in Hhd, Hlacks, Hshape, Hsub, Hhd', Hlacks', Hshape', Hsub'.
  exists (if lacksEmptyOption (Choice_Options single)
          then "" :: Choice_Options single else Choice_Options single),
    (if lacksEmptyOption options then "" :: options else options),
    (if lacksEmptyOption options then wrap_int (index + 1) else index).
  split; [reflexivity|]. split.
  { destruct (lacksEmptyOption options); reflexivity. }
  repeat split; auto.
  - destruct Hshape as [->| ->]; simpl; lia.
  - destruct Hshape' as [->| ->]; simpl; lia.
Qed.

(** A choice among a and b shows the empty option, a, b; a dynamic choice
    whose options start with the empty option shows them as they are. *)
Lemma choice_NewInput_shows_empty_first_witness :
  exists shown shown' index',
    @ModelChoiceController.NewInput sampleLibrary false
      (sampleField "size" (model.VChoice "a") []) sampleForm
    = Returns
        (Some (choiceSelect sampleForm
                 (sampleField "size" (model.VChoice "a") [])
                 (StringsSelectModel shown "a")), None)
    /\ @ModelDynamicChoiceController.NewInput sampleLibrary false
         (sampleField "pick" (model.VDynamicChoice 1 [""; "x"]) [])
         sampleForm
       = Returns
           (Some (choiceSelect sampleForm
                    (sampleField "pick"
                       (model.VDynamicChoice 1 [""; "x"]) [])
                    (IndexedStringsSelectModel shown' index')), None)
    /\ hd_error shown = Some "" /\ hd_error shown' = Some "".
Proof.
  destruct (choice_NewInput_shows_empty_first
              sampleLibrary false sampleForm
              (sampleField "size" (model.VChoice "a") []) "a"
              (sampleField "pick" (model.VDynamicChoice 1 [""; "x"]) [])
              1 [""; "x"] eq_refl eq_refl)
    as (shown & shown' & index' & Hsingle & Hdynamic & Hhd & Hhd' & _).
  exists shown, shown', index'.
  repeat split; [exact Hsingle|exact Hdynamic|exact Hhd|exact Hhd'].
Defined.

(** X16.  For a dynamic-choice field whose index points into its options
    (a Go slice, so no longer than the largest [int]), the index the
    select is given points into the options shown, at the very option the
    field's index points at: injecting the empty option does not move the
    displayed selection. *)
Theorem ModelDynamicChoiceController_NewInput_aligned :
  forall (lib : Library) (withLabel : bool) (form : Form)
         (metaData : model.MetaData) (index : Z) (options : list string),
    model.Value metaData = model.VDynamicChoice index options ->
    0 <= index < Z.of_nat (length options) ->
    Z.of_nat (length options) <= max_int ->
    exists shown index',
      ModelDynamicChoiceController.NewInput withLabel metaData form
      = labelled withLabel form
          (choiceSelect form metaData
             (IndexedStringsSelectModel shown index'))
          metaData
      /\ 0 <= index' < Z.of_nat (length shown)
      /\ nth_error shown (Z.to_nat index')
         = nth_error options (Z.to_nat index)
      /\ is_Some (nth_error options (Z.to_nat index)).
Proof.
  intros lib withLabel form metaData index options Hfield Hindex Hlen.
  unfold ModelDynamicChoiceController.NewInput. rewrite Hfield.
  assert (Hsome : is_Some (nth_error options (Z.to_nat index))).
  { destruct (nth_error options (Z.to_nat index)) eqn:Hnth; [eauto|].
    apply nth_error_None in Hnth. lia. }
  destruct (lacksEmptyOption options).
  - exists ("" :: options), (index + 1).
    rewrite wrap_int_in_range
      by (unfold min_int, max_int, int_bits in *; lia).
    split; [reflexivity|]. split; [simpl length; lia|]. split; [|exact Hsome].
    replace (Z.to_nat (index + 1)) with (S (Z.to_nat index)) by lia.
    reflexivity.
  - exists options, index. split; [reflexivity|]. auto.
Qed.

(** Options a, b with b current at index 1: the select is given index 2,
    where b stands among the options shown. *)
Lemma ModelDynamicChoiceController_NewInput_aligned_witness :
  exists shown index',
    @ModelDynamicChoiceController.NewInput sampleLibrary false
      (sampleField "pick" (model.VDynamicChoice 1 ["a"; "b"]) []) sampleForm
    = Returns
        (Some (choiceSelect sampleForm
                 (sampleField "pick" (model.VDynamicChoice 1 ["a"; "b"]) [])
                 (IndexedStringsSelectModel shown index')), None)
    /\ nth_error shown (Z.to_nat index') = Some "b".
Proof.
  assert (Hindex : 0 <= 1 < Z.of_nat (length ["a"; "b"]))
    by (vm_compute; split; congruence).
  assert (Hlen : Z.of_nat (length ["a"; "b"]) <= max_int)
    by (vm_compute; congruence).
  destruct (ModelDynamicChoiceController_NewInput_aligned
              sampleLibrary false sampleForm
              (sampleField "pick" (model.VDynamicChoice 1 ["a"; "b"]) [])
              1 ["a"; "b"] eq_refl Hindex Hlen)
    as (shown & index' & Hrun & _ & Hnth & _).
  exists shown, index'. split; [exact Hrun|exact Hnth].
Defined.

(** ** SetValue of a controller outside its claimed type *)

(** X17.  Called on a field it does not support, [SetValue] of a
    controller of this file never returns [ErrFormFieldTypeNotSupported]:
    each of the four controllers with a [SetValue] of their own (boolean,
    multiple choice, file, blob) panics on its type assertion; each of the
    twelve that embed [modelValueControllerBase] checks no type, so it
    binds a field that is a [model.Value] by [SetString] with a nil error
    and panics on a field that is none.  The sixteen controllers are
    these four and these twelve. *)
Theorem perTypeControllers_SetValue_outside_type :
  forall (lib : Library) (c : FormFieldController.t) (ctx : Context)
         (metaData : model.MetaData) (form : Form),
    FormFieldController.Supports c metaData form = false ->
    (In c selfBindingControllers ->
     exists msg, FormFieldController.SetValue c ctx metaData form = Panics msg)
    /\ (In c baseBindingControllers ->
        if model.IsValue (model.Value metaData)
        then FormFieldController.SetValue c ctx metaData form
             = Returns
                 {| stored :=
                      SetString (model.Value metaData)
                        (http.FormValue (Request ctx)
                           (model.Selector metaData));
                    streams := [];
                    err := None |}
        else exists msg,
            FormFieldController.SetValue c ctx metaData form = Panics msg)
    /\ (In c perTypeControllers ->
        (In c selfBindingControllers \/ In c baseBindingControllers)
        /\ forall b unsupported,
            FormFieldController.SetValue c ctx metaData form = Returns b ->
            err b <> Some (ErrFormFieldTypeNotSupported unsupported)).
Proof.
  intros lib c ctx metaData form Hdeclines.
  assert (Hself :
            In c selfBindingControllers ->
            exists msg,
              FormFieldController.SetValue c ctx metaData form = Panics msg).
  { intros Hin. destruct metaData as [selector field attribs].
    unfold selfBindingControllers in Hin. cbn [In] in Hin.
    repeat (destruct Hin as [<-|Hin]); try contradiction;
      destruct field; try discriminate Hdeclines; eexists; reflexivity. }
  assert (Hbase :
            In c baseBindingControllers ->
            if model.IsValue (model.Value metaData)
            then FormFieldController.SetValue c ctx metaData form
                 = Returns
                     {| stored :=
                          SetString (model.Value metaData)
                            (http.FormValue (Request ctx)
                               (model.Selector metaData));
                        streams := [];
                        err := None |}
            else exists msg,
                FormFieldController.SetValue c ctx metaData form
                = Panics msg).
  { intros Hin. destruct metaData as [selector field attribs].
    unfold baseBindingControllers in Hin. cbn [In] in Hin.
    repeat (destruct Hin as [<-|Hin]); try contradiction;
      destruct field as [| | | | | | | | | | | | | | | |typeName []];
      try discriminate Hdeclines; try reflexivity; eexists; reflexivity. }
  split; [exact Hself|]. split; [exact Hbase|].
  intros Hin.
  assert (Hkind : In c selfBindingControllers \/ In c baseBindingControllers).
  { unfold perTypeControllers in Hin. cbn [In] in Hin.
    unfold selfBindingControllers, baseBindingControllers. cbn [In].
    tauto. }
  split; [exact Hkind|].
  intros b unsupported Hrun.
  destruct Hkind as [Hown|Hembeds].
  - destruct (Hself Hown) as [msg Hpanic]. congruence.
  - specialize (Hbase Hembeds).
    destruct (model.IsValue (model.Value metaData)).
    + rewrite Hbase in Hrun. injection Hrun as <-. discriminate.
    + destruct Hbase as [msg Hpanic]. congruence.
Qed.

(** On a string field, which neither supports: the boolean controller
    panics, and the integer controller binds by [SetString] with a nil
    error. *)
Lemma perTypeControllers_SetValue_outside_type_witness :
  (exists msg,
      FormFieldController.SetValue ModelBoolController.controller
        (sampleContext [("name", ["7"])] [])
        (sampleField "name" (model.VString "Ada") []) sampleForm
      = Panics msg)
  /\ FormFieldController.SetValue
       (@ModelIntController.controller sampleLibrary)
       (sampleContext [("name", ["7"])] [])
       (sampleField "name" (model.VString "Ada") []) sampleForm
     = Returns
         {| stored := model.VString "7"; streams := []; err := None |}.
Proof.
  split.
  - apply (proj1 (perTypeControllers_SetValue_outside_type
                    sampleLibrary ModelBoolController.controller
                    (sampleContext [("name", ["7"])] [])
                    (sampleField "name" (model.VString "Ada") [])
                    sampleForm eq_refl)).
    unfold selfBindingControllers. cbn [In]. tauto.
  - apply (proj1 (proj2 (perTypeControllers_SetValue_outside_type
                           sampleLibrary
                           (@ModelIntController.controller sampleLibrary)
                           (sampleContext [("name", ["7"])] [])
                           (sampleField "name" (model.VString "Ada") [])
                           sampleForm eq_refl))).
    unfold baseBindingControllers. cbn [In]. tauto.
Defined.

(** ** Spans within spans *)

Lemma sampleChars_wellBracketed (s : string) (err : option Error) :
  wellBracketed (sampleChars s err).
Proof.
  intros response. split; [reflexivity|].
  eexists. reflexivity.
Qed.

(** A span around a view that writes text and fails keeps the contract:
    the tags open after rendering are those open before. *)
Lemma Span_Render_wellBracketed_witness :
  exists final err inner,
    Span.Render
      {| Span.id := "s1";
         Span.Class := "";
         Span.Content := Some (sampleChars "par" (Some (ErrForeign "boom")))
      |}
      {| XML :=
           {| XMLWriter.written := [XMLWriter.TagStart "div"];
              XMLWriter.tagStack := ["div"];
              XMLWriter.inOpenTag := true |} |}
    = Returns (final, err)
    /\ XMLWriter.tagStack (XML final) = ["div"]
    /\ XMLWriter.written (XML final) = [XMLWriter.TagStart "div"] ++ inner.
Proof.
  apply (Span_Render_wellBracketed
           {| Span.id := "s1";
              Span.Class := "";
              Span.Content :=
                Some (sampleChars "par" (Some (ErrForeign "boom"))) |}).
  intros content [= <-]. apply sampleChars_wellBracketed.
Defined.
